(** * tag_parser.basetags: base classes for template tag nodes

    A shallow embedding of [src/tag_parser/basetags.py]: the classes
    [BaseNode], [BaseInclusionNode] and [BaseAssignmentOrInclusionNode].

    Conventions of the embedding.
    - Python values are the inductive [pyval]; a dict with string keys is a
      [gmap string pyval].
    - A function that can raise returns a [Result]; a method that mutates
      [self] or the template context runs in the monad [M], which threads
      the node and the context and keeps every mutation done before a raise.
    - The framework (Django's [Context], [get_template], [NodeList.render],
      [FilterExpression.resolve]) and the sibling module [tag_parser.parser]
      are collaborators: [Context] is modelled below, the others are
      [Variable]s of the sections that use them.
    - A call [f(..., **kwargs)] of a method of this file raises [TypeError]
      when a key of [kwargs] is the name of a parameter of [f]
      ([bind_kwargs]).  A definition named after a method is the method's
      body, its [tag_kwargs] being what [**tag_kwargs] received; the calls
      are [call_validate_args], [BaseNode_new],
      [BaseAssignmentOrInclusionNode_new], [call_render_tag] and the two
      [get_context_data]. *)

From stdpp Require Import gmap strings list fin_maps pretty.

Open Scope string_scope.

(** ** Python values and exceptions *)

Inductive pyval : Type :=
  | PyNone
  | PyBool (b : bool)
  | PyInt (n : Z)
  | PyStr (s : string)
  | PyFilterExpression (token : string)   (* a compiled filter expression *)
  | PyObject (id : nat).                  (* any other object, e.g. the request *)

#[global] Instance pyval_eq_dec : EqDecision pyval.
Proof. solve_decision. Defined.

Inductive exn : Type :=
  | TemplateSyntaxError (msg : string)
  | ImproperlyConfigured (msg : string)
  | NotImplementedError (msg : string)
  | KeyError (key : string)
  | AttributeError (attr : string)
  | TypeError (callee : string)           (* [callee() got multiple values for keyword argument ...] *)
  | OtherError (name msg : string).       (* raised by a collaborator *)

#[global] Instance exn_eq_dec : EqDecision exn.
Proof. solve_decision. Defined.

Inductive Result (A : Type) : Type :=
  | Return (a : A)
  | Raise (e : exn).
Arguments Return {A} a.
Arguments Raise {A} e.

#[global] Instance Result_ret : MRet Result := λ A a, Return a.
#[global] Instance Result_bind : MBind Result := λ A B k r,
  match r with
  | Return a => k a
  | Raise e => Raise e
  end.
#[global] Instance Result_fmap : FMap Result := λ A B f r,
  match r with
  | Return a => Return (f a)
  | Raise e => Raise e
  end.

Definition raises {A} (r : Result A) : Prop := ∃ e, r = Raise e.
Definition is_TemplateSyntaxError (e : exn) : Prop := ∃ msg, e = TemplateSyntaxError msg.
Definition is_ImproperlyConfigured (e : exn) : Prop := ∃ msg, e = ImproperlyConfigured msg.

(** ** Keyword arguments of a call

    [callee(..., **kwargs)] where [callee] names the parameters [params]
    before its own [**kwargs]: a key that is one of these names is a second
    value for that parameter, and the call raises [TypeError] before the
    body runs. *)

Definition collides (params : list string) (kwargs : gmap string pyval) : bool :=
  existsb (λ p, bool_decide (is_Some (kwargs !! p))) params.

Definition bind_kwargs (callee : string) (params : list string)
    (kwargs : gmap string pyval) : Result unit :=
  if collides params kwargs then Raise (TypeError callee) else Return tt.

(** ** django.template.Context

    The stack of dicts of [django.template.context.BaseContext].  Django
    never lets the stack become empty ([pop] refuses to remove the last
    dict), so the record holds the innermost dict [top] ([self.dicts[-1]])
    and the dicts [below] it, innermost first: [scopes] is
    [reversed(self.dicts)].

    A new context starts as [[builtins, dict_]] (Django 1.7 and later;
    Django 1.5 and 1.6 merge the two into one dict, earlier versions have no
    builtins).  The theorems on [get_context] state lookups of
    ['csrf_token'], of ['request'] and of the names the data binds, which
    do not depend on that layout. *)

Record Context : Type := mkContext {
  top : gmap string pyval;
  below : list (gmap string pyval);
  autoescape : bool
}.

Definition scopes (c : Context) : list (gmap string pyval) := top c :: below c.

Definition builtins : gmap string pyval :=
  <[ "True" := PyBool true ]> (<[ "False" := PyBool false ]> {[ "None" := PyNone ]}).

(** [Context(dict_, autoescape=...)] *)
Definition Context_new (dict_ : gmap string pyval) (autoescape : bool) : Context :=
  mkContext dict_ [builtins] autoescape.

Fixpoint first_binding (key : string) (ds : list (gmap string pyval)) : option pyval :=
  match ds with
  | [] => None
  | d :: ds' =>
      match d !! key with
      | Some v => Some v
      | None => first_binding key ds'
      end
  end.

(** [for d in self.dicts: if key in d: return True] *)
Fixpoint any_binds (key : string) (ds : list (gmap string pyval)) : bool :=
  match ds with
  | [] => false
  | d :: ds' => if d !! key is Some _ then true else any_binds key ds'
  end.

(** [context.has_key(key)] walks [self.dicts] outermost first. *)
Definition has_key (c : Context) (key : string) : bool :=
  any_binds key (reverse (scopes c)).

(** [context[key]] walks [reversed(self.dicts)]; [KeyError] when unbound. *)
Definition getitem (c : Context) (key : string) : Result pyval :=
  match first_binding key (scopes c) with
  | Some v => Return v
  | None => Raise (KeyError key)
  end.

(** [context.get(key, otherwise)] *)
Definition get (c : Context) (key : string) (otherwise : pyval) : pyval :=
  default otherwise (first_binding key (scopes c)).

(** [context[key] = value] writes [self.dicts[-1]]. *)
Definition setitem (c : Context) (key : string) (value : pyval) : Context :=
  mkContext (<[key := value]> (top c)) (below c) (autoescape c).

(** ** Tag classes and nodes *)

(** The class attributes a subclass may override. *)
Record TagClass : Type := mkTagClass {
  class_name : string;                    (* [cls.__name__] *)
  allowed_kwargs : list string;
  min_args : option Z;
  max_args : option Z;
  compile_args : bool;
  compile_kwargs : bool;
  template_name : pyval;                  (* BaseInclusionNode *)
  context_value_name : string             (* BaseAssignmentOrInclusionNode *)
}.

Definition BaseNode_class : TagClass :=
  mkTagClass "BaseNode" [] (Some 0%Z) (Some 0%Z) true true PyNone "value".

Definition BaseInclusionNode_class : TagClass :=
  mkTagClass "BaseInclusionNode" ["template"] (Some 0%Z) (Some 0%Z) true true PyNone "value".

Definition BaseAssignmentOrInclusionNode_class : TagClass :=
  mkTagClass "BaseAssignmentOrInclusionNode" ["template"] (Some 0%Z) (Some 0%Z)
             true true PyNone "value".

(** Nodes of an included template; how they render is the framework's. *)
Inductive TemplateNode : Type :=
  | TextNode (s : string)
  | VariableNode (token : string)
  | OtherNode (id : nat).

#[global] Instance TemplateNode_eq_dec : EqDecision TemplateNode.
Proof. solve_decision. Defined.

Abbreviation NodeList := (list TemplateNode).

Record Template : Type := mkTemplate { tpl_nodelist : NodeList }.

(** The instance attributes: [tag_name], [args], [kwargs] from
    [BaseNode.__init__], [as_var] from
    [BaseAssignmentOrInclusionNode.__init__] ([None] elsewhere), and
    [nodelist], which [BaseInclusionNode.render_tag] sets ([None] stands
    for the attribute being absent). *)
Record Node : Type := mkNode {
  node_class : TagClass;
  tag_name : string;
  args : list pyval;
  kwargs : gmap string pyval;
  as_var : option string;
  nodelist : option NodeList
}.

(** [BaseNode.__init__(self, tag_name, *args, **kwargs)] *)
Definition BaseNode_init (cls : TagClass) (tag_name : string)
    (args : list pyval) (kwargs : gmap string pyval) : Node :=
  mkNode cls tag_name args kwargs None None.

(** [BaseAssignmentOrInclusionNode.__init__(self, tag_name, as_var, *args, **kwargs)] *)
Definition BaseAssignmentOrInclusionNode_init (cls : TagClass) (tag_name : string)
    (as_var : option string) (args : list pyval) (kwargs : gmap string pyval) : Node :=
  mkNode cls tag_name args kwargs as_var None.

(** ** BaseNode.validate_args *)

Definition dquote : string := String (Ascii.ascii_of_nat 34) EmptyString.

(** [cls.min_args is not None and len(args) < cls.min_args]: the bound
    that fails, if one does. *)
Definition below_min (cls : TagClass) (n : nat) : option Z :=
  match min_args cls with
  | Some m => if bool_decide (Z.of_nat n < m)%Z then Some m else None
  | None => None
  end.

(** [cls.max_args is not None and len(args) > cls.max_args] *)
Definition above_max (cls : TagClass) (n : nat) : option Z :=
  match max_args cls with
  | Some m => if bool_decide (Z.of_nat n > m)%Z then Some m else None
  | None => None
  end.

Definition min_args_message (cls : TagClass) (tag_name : string) (m : Z) : string :=
  if bool_decide (m = 1%Z)
  then "'" +:+ tag_name +:+ "' tag requires at least " +:+ pretty m +:+ " argument"
  else "'" +:+ tag_name +:+ "' tag requires at least " +:+ pretty m +:+ " arguments".

Definition max_args_message (cls : TagClass) (tag_name : string) (m : Z) : string :=
  if bool_decide (m = 0%Z) then
    match allowed_kwargs cls with
    | kw :: _ =>
        "'" +:+ tag_name +:+ "' tag only allows keywords arguments, for example "
            +:+ kw +:+ "=" +:+ dquote +:+ "..." +:+ dquote +:+ "."
    | [] => "'" +:+ tag_name +:+ "' tag doesn't support any arguments"
    end
  else if bool_decide (m = 1%Z)
  then "'" +:+ tag_name +:+ "' tag only allows " +:+ pretty m +:+ " argument."
  else "'" +:+ tag_name +:+ "' tag only allows " +:+ pretty m +:+ " arguments.".

(** [validate_args(cls, tag_name, *args, **kwargs)]; [kwargs] is accepted
    and never read. *)
Definition validate_args (cls : TagClass) (tag_name : string)
    (args : list pyval) (kwargs : gmap string pyval) : Result unit :=
  match below_min cls (length args) with
  | Some m => Raise (TemplateSyntaxError (min_args_message cls tag_name m))
  | None =>
      match above_max cls (length args) with
      | Some m => Raise (TemplateSyntaxError (max_args_message cls tag_name m))
      | None => Return tt
      end
  end.

(** ** BaseNode.get_request *)

Definition get_request (self : Node) (context : Context) : Result pyval :=
  if negb (has_key context "request") then
    Raise (ImproperlyConfigured
      ("The '" +:+ tag_name self +:+
       "' tag requires a 'request' variable in the template context." +:+
       String (Ascii.ascii_of_nat 10) EmptyString +:+
       "Make sure 'RequestContext' is used and 'TEMPLATE_CONTEXT_PROCESSORS' includes 'django.core.context_processors.request'."))
  else getitem context "request".

(** ** Rendering: the node and the context are mutable objects *)

Record State : Type := mkState { st_self : Node; st_context : Context }.

Definition M (A : Type) : Type := State → Result A * State.

#[global] Instance M_ret : MRet M := λ A a st, (Return a, st).
#[global] Instance M_bind : MBind M := λ A B k m st,
  match m st with
  | (Return a, st') => k a st'
  | (Raise e, st') => (Raise e, st')
  end.

Definition lift {A} (r : Result A) : M A := λ st, (r, st).
Definition get_self : M Node := λ st, (Return (st_self st), st).
Definition get_parent_context : M Context := λ st, (Return (st_context st), st).

(** The node once [self.nodelist = nl] is done. *)
Definition with_nodelist (self : Node) (nl : NodeList) : Node :=
  mkNode (node_class self) (tag_name self) (args self) (kwargs self)
         (as_var self) (Some nl).

(** [self.nodelist = nl] *)
Definition set_nodelist (nl : NodeList) : M unit := λ st,
  (Return tt, mkState (with_nodelist (st_self st) nl) (st_context st)).

(** [context[key] = value] *)
Definition context_setitem (key : string) (value : pyval) : M unit := λ st,
  (Return tt, mkState (st_self st) (setitem (st_context st) key value)).

Section Rendering.

(** [FilterExpression.resolve(context)], by the expression's source. *)
Variable resolve : string → Context → Result pyval.
(** [django.template.loader.get_template(name)] *)
Variable get_template : pyval → Result Template.
(** [NodeList.render(context)] *)
Variable nodelist_render : NodeList → Context → Result string.
(** The hook [get_value(self, *tag_args, **tag_kwargs)] of a subclass. *)
Variable get_value : Node → list pyval → gmap string pyval → Result pyval.

(** [expr.resolve(context)]: only a filter expression has the method. *)
Definition resolve_expr (context : Context) (expr : pyval) : Result pyval :=
  match expr with
  | PyFilterExpression token => resolve token context
  | _ => Raise (AttributeError "resolve")
  end.

Definition resolve_item (context : Context) (item : string * pyval)
    : Result (string * pyval) :=
  value ← resolve_expr context item.2; mret (item.1, value).

(** [[expr.resolve(context) for expr in self.args] if self.compile_args else self.args] *)
Definition resolve_args (self : Node) (context : Context) : Result (list pyval) :=
  if compile_args (node_class self)
  then mapM (resolve_expr context) (args self)
  else Return (args self).

(** [dict([(name, expr.resolve(context)) for name, expr in self.kwargs.iteritems()])
     if self.compile_kwargs else self.kwargs] *)
Definition resolve_kwargs (self : Node) (context : Context)
    : Result (gmap string pyval) :=
  if compile_kwargs (node_class self)
  then items ← mapM (resolve_item context) (map_to_list (kwargs self));
       mret (list_to_map items)
  else Return (kwargs self).

(** [BaseNode.render]; [render_tag] is the method the node's class
    resolves [self.render_tag] to. *)
Definition render (render_tag : list pyval → gmap string pyval → M string)
    : M string :=
  self ← get_self;
  context ← get_parent_context;
  tag_args ← lift (resolve_args self context);
  tag_kwargs ← lift (resolve_kwargs self context);
  render_tag tag_args tag_kwargs.

(** The body of [BaseNode.render_tag]; [render_tag_of] is the call. *)
Definition BaseNode_render_tag (tag_args : list pyval)
    (tag_kwargs : gmap string pyval) : M string :=
  self ← get_self;
  lift (Raise (NotImplementedError
    (class_name (node_class self) +:+ ".render_tag() is not implemented!"))).

(** *** BaseInclusionNode *)

Definition get_template_name (self : Node) (tag_args : list pyval)
    (tag_kwargs : gmap string pyval) : pyval :=
  default (template_name (node_class self)) (tag_kwargs !! "template").

(** [BaseInclusionNode.get_context_data], as
    [self.get_context_data(context, *tag_args, **tag_kwargs)] calls it. *)
Definition BaseInclusionNode_get_context_data (self : Node)
    (parent_context : Context) (tag_args : list pyval)
    (tag_kwargs : gmap string pyval) : Result (gmap string pyval) :=
  bind_kwargs "get_context_data" ["self"; "parent_context"] tag_kwargs;;
  Raise (NotImplementedError
    (class_name (node_class self) +:+ ".get_context_data() is not implemented.")).

Definition get_context (parent_context : Context) (data : gmap string pyval)
    : Context :=
  let new_context := Context_new data (autoescape parent_context) in
  let csrf_token := get parent_context "csrf_token" PyNone in
  if bool_decide (csrf_token ≠ PyNone)
  then setitem new_context "csrf_token" csrf_token
  else new_context.

(** [getattr(self, 'nodelist', None)] as a condition: a [NodeList] is a
    list, true when it is not empty. *)
Definition nodelist_truthy (self : Node) : bool :=
  match nodelist self with
  | Some (_ :: _) => true
  | _ => false
  end.

(** [BaseInclusionNode.render_tag]; [get_context_data] is the method the
    node's class resolves [self.get_context_data] to. *)
Definition BaseInclusionNode_render_tag
    (get_context_data : Node → Context → list pyval → gmap string pyval
                        → Result (gmap string pyval))
    (tag_args : list pyval) (tag_kwargs : gmap string pyval) : M string :=
  self ← get_self;
  (if negb (nodelist_truthy self)
   then tpl ← lift (get_template (get_template_name self tag_args tag_kwargs));
        set_nodelist (tpl_nodelist tpl)
   else mret tt);;
  self ← get_self;
  context ← get_parent_context;
  data ← lift (get_context_data self context tag_args tag_kwargs);
  let new_context := get_context context data in
  match nodelist self with
  | Some nl => lift (nodelist_render nl new_context)
  | None => lift (Raise (AttributeError "render"))
  end.

(** *** BaseAssignmentOrInclusionNode *)

(** [BaseAssignmentOrInclusionNode.get_context_data], as
    [self.get_context_data(context, *tag_args, **tag_kwargs)] calls it. *)
Definition BaseAssignmentOrInclusionNode_get_context_data (self : Node)
    (parent_context : Context) (tag_args : list pyval)
    (tag_kwargs : gmap string pyval) : Result (gmap string pyval) :=
  bind_kwargs "get_context_data" ["self"; "parent_context"] tag_kwargs;;
  value ← get_value self tag_args tag_kwargs;
  mret {[ context_value_name (node_class self) := value ]}.

(** [BaseAssignmentOrInclusionNode.render_tag]: [if self.as_var:] holds
    for a name that is neither [None] nor the empty string. *)
Definition BaseAssignmentOrInclusionNode_render_tag (tag_args : list pyval)
    (tag_kwargs : gmap string pyval) : M string :=
  self ← get_self;
  let inclusion :=
    BaseInclusionNode_render_tag BaseAssignmentOrInclusionNode_get_context_data
                                 tag_args tag_kwargs in
  match as_var self with
  | Some name =>
      if bool_decide (name ≠ EmptyString) then
        value ← lift (get_value self tag_args tag_kwargs);
        context_setitem name value;;
        mret EmptyString
      else inclusion
  | None => inclusion
  end.

(** *** Method resolution

    [self.render_tag] for a node of each of the three base classes;
    [get_context_data] is the hook a subclass of [BaseInclusionNode]
    defines. *)
Variable get_context_data :
  Node → Context → list pyval → gmap string pyval → Result (gmap string pyval).

Inductive BaseClass : Type :=
  | IsBaseNode
  | IsBaseInclusionNode
  | IsBaseAssignmentOrInclusionNode.

(** [self.render_tag(context, *tag_args, **tag_kwargs)] *)
Definition call_render_tag (render_tag : list pyval → gmap string pyval → M string)
    (tag_args : list pyval) (tag_kwargs : gmap string pyval) : M string :=
  lift (bind_kwargs "render_tag" ["self"; "context"] tag_kwargs);;
  render_tag tag_args tag_kwargs.

Definition render_tag_of (base : BaseClass)
    : list pyval → gmap string pyval → M string :=
  call_render_tag
    match base with
    | IsBaseNode => BaseNode_render_tag
    | IsBaseInclusionNode => BaseInclusionNode_render_tag get_context_data
    | IsBaseAssignmentOrInclusionNode => BaseAssignmentOrInclusionNode_render_tag
    end.

End Rendering.


(** ** Parsing *)

(** What [parse] hands to the helpers of [tag_parser.parser]: the token, or
    the list of bits left once the "as var" part is removed. *)
Inductive TokenArg : Type :=
  | Token (contents : string)
  | Bits (bits : list string).

(** [cls.validate_args(tag_name, *args, **kwargs)] *)
Definition call_validate_args (cls : TagClass) (tag_name : string)
    (args : list pyval) (kwargs : gmap string pyval) : Result unit :=
  bind_kwargs "validate_args" ["cls"; "tag_name"] kwargs;;
  validate_args cls tag_name args kwargs.

(** [cls(tag_name, *args, **kwargs)] for a class with [BaseNode.__init__] *)
Definition BaseNode_new (cls : TagClass) (tag_name : string)
    (args : list pyval) (kwargs : gmap string pyval) : Result Node :=
  bind_kwargs "__init__" ["self"; "tag_name"] kwargs;;
  mret (BaseNode_init cls tag_name args kwargs).

(** [cls(tag_name, as_var, *args, **kwargs)] for a class with
    [BaseAssignmentOrInclusionNode.__init__]; its call of the base
    [__init__] passes on keywords that are already bound. *)
Definition BaseAssignmentOrInclusionNode_new (cls : TagClass) (tag_name : string)
    (as_var : option string) (args : list pyval) (kwargs : gmap string pyval)
    : Result Node :=
  bind_kwargs "__init__" ["self"; "tag_name"; "as_var"] kwargs;;
  mret (BaseAssignmentOrInclusionNode_init cls tag_name as_var args kwargs).

Section Parsing.

Variable Parser : Type.
(** [tag_parser.parser.parse_token_kwargs(parser, token, allowed_kwargs,
    compile_args, compile_kwargs)] returns [(tag_name, args, kwargs)]. *)
Variable parse_token_kwargs :
  Parser → TokenArg → list string → bool → bool
  → Result (string * list pyval * gmap string pyval).
(** [tag_parser.parser.parse_as_var(parser, token)] returns [(bits, as_var)]. *)
Variable parse_as_var : Parser → TokenArg → Result (list string * option string).

Definition BaseNode_parse (cls : TagClass) (parser : Parser) (token : TokenArg)
    : Result Node :=
  '(tag_name, args, kwargs) ←
    parse_token_kwargs parser token (allowed_kwargs cls)
                       (compile_args cls) (compile_kwargs cls);
  call_validate_args cls tag_name args kwargs;;
  BaseNode_new cls tag_name args kwargs.

(** [('template',) + cls.allowed_kwargs] *)
Definition BaseAssignmentOrInclusionNode_allowed_kwargs (cls : TagClass)
    : list string :=
  "template" :: allowed_kwargs cls.

Definition BaseAssignmentOrInclusionNode_parse (cls : TagClass)
    (parser : Parser) (token : TokenArg) : Result Node :=
  '(bits, as_var) ← parse_as_var parser token;
  '(tag_name, args, kwargs) ←
    parse_token_kwargs parser (Bits bits)
                       (BaseAssignmentOrInclusionNode_allowed_kwargs cls)
                       (compile_args cls) (compile_kwargs cls);
  validate_args cls tag_name args ∅;;
  BaseAssignmentOrInclusionNode_new cls tag_name as_var args kwargs.

End Parsing.

(** * Specification vocabulary *)

(** [key] is a variable of the context: some dict of the stack binds it. *)
Definition bound (c : Context) (key : string) : Prop :=
  ∃ d, d ∈ scopes c ∧ is_Some (d !! key).

(** No key of [kwargs] is one of the parameter names [params]: the
    keywords can be passed to a callee with these parameters. *)
Definition binds (params : list string) (kwargs : gmap string pyval) : Prop :=
  ∀ p, p ∈ params → kwargs !! p = None.

(** The count [n] of positional arguments is outside the declared bounds. *)
Definition out_of_bounds (cls : TagClass) (n : nat) : Prop :=
  (∃ m, min_args cls = Some m ∧ (Z.of_nat n < m)%Z) ∨
  (∃ m, max_args cls = Some m ∧ (Z.of_nat n > m)%Z).

(** The variables of [parent] are variables of [new_context]. *)
Definition inherits_variables (parent new_context : Context) : Prop :=
  ∀ key, bound parent key → bound new_context key.

(** The context [get_context] returns is inherited from the parent, has its
    autoescape flag and its non-[None] ['csrf_token']. *)
Definition inherited_context (parent_context : Context)
    (data : gmap string pyval) : Prop :=
  let new_context := get_context parent_context data in
  inherits_variables parent_context new_context ∧
  autoescape new_context = autoescape parent_context ∧
  (∀ token, getitem parent_context "csrf_token" = Return token →
            token ≠ PyNone →
            getitem new_context "csrf_token" = Return token).

(** What [render] passes for the positional arguments. *)
Definition passed_args (resolve : string → Context → Result pyval)
    (self : Node) (context : Context)
    (tag_args : list pyval) : Prop :=
  if compile_args (node_class self)
  then Forall2 (λ expr value, resolve_expr resolve context expr = Return value)
               (args self) tag_args
  else tag_args = args self.

(** What [render] passes for the keyword arguments. *)
Definition passed_kwargs (resolve : string → Context → Result pyval)
    (self : Node) (context : Context)
    (tag_kwargs : gmap string pyval) : Prop :=
  if compile_kwargs (node_class self)
  then ∀ name,
         option_Forall2 (λ expr value, resolve_expr resolve context expr = Return value)
                        (kwargs self !! name) (tag_kwargs !! name)
  else tag_kwargs = kwargs self.

(** [render] leaves the node as it was. *)
Definition leaves_node_unchanged (m : M string) : Prop :=
  ∀ self context, st_self (m (mkState self context)).2 = self.

(** ** A sample tag *)

Definition HelloTag_class : TagClass :=
  mkTagClass "HelloTag" ["template"] (Some 0%Z) (Some 1%Z) true true
             (PyStr "hello.html") "value".

(** A filter expression that is a variable name. *)
Definition sample_resolve (token : string) (context : Context) : Result pyval :=
  Return (get context token PyNone).

Definition sample_get_template (name : pyval) : Result Template :=
  if bool_decide (name = PyStr "hello.html")
  then Return (mkTemplate [TextNode "Hello "; VariableNode "value"])
  else Raise (OtherError "TemplateDoesNotExist" "hello").

Definition sample_render_node (context : Context) (n : TemplateNode) : string :=
  match n with
  | TextNode s => s
  | VariableNode token =>
      match get context token PyNone with
      | PyStr s => s
      | _ => EmptyString
      end
  | OtherNode _ => EmptyString
  end.

Definition sample_nodelist_render (nl : NodeList) (context : Context)
    : Result string :=
  Return (foldr (λ n out, sample_render_node context n +:+ out) EmptyString nl).

Definition sample_get_value (self : Node) (tag_args : list pyval)
    (tag_kwargs : gmap string pyval) : Result pyval :=
  Return (default PyNone (head tag_args)).

Definition sample_get_context_data (self : Node) (parent_context : Context)
    (tag_args : list pyval) (tag_kwargs : gmap string pyval)
    : Result (gmap string pyval) :=
  Return {[ "value" := default PyNone (head tag_args) ]}.

Definition sample_render_tag (base : BaseClass)
    : list pyval → gmap string pyval → M string :=
  render_tag_of sample_get_template sample_nodelist_render sample_get_value
                sample_get_context_data base.

Definition sample_context : Context :=
  Context_new (<[ "tpl" := PyStr "hello.html" ]> {[ "who" := PyStr "world" ]}) true.

Definition hello_node : Node :=
  BaseNode_init HelloTag_class "hello" [PyFilterExpression "who"] ∅.

Definition hello_template_node : Node :=
  BaseNode_init HelloTag_class "hello" [PyFilterExpression "who"]
                {[ "template" := PyFilterExpression "tpl" ]}.

Definition hello_as_node : Node :=
  BaseAssignmentOrInclusionNode_init HelloTag_class "hello" (Some "greeting")
                                     [PyFilterExpression "who"] ∅.

(** [BaseNode.parse] answers every invalid number of positional arguments
    with a [TemplateSyntaxError]. *)
Definition invalid_arity_is_syntax_error {Parser : Type}
    (parse_token_kwargs : Parser → TokenArg → list string → bool → bool
                          → Result (string * list pyval * gmap string pyval))
    (cls : TagClass) (parser : Parser) (token : TokenArg) : Prop :=
  ∀ tag_name args kwargs,
    parse_token_kwargs parser token (allowed_kwargs cls)
                       (compile_args cls) (compile_kwargs cls)
      = Return (tag_name, args, kwargs) →
    out_of_bounds cls (length args) →
    ∃ msg, BaseNode_parse Parser parse_token_kwargs cls parser token
           = Raise (TemplateSyntaxError msg).

(** A tag that allows a keyword named [tag_name], and what
    [parse_token_kwargs] returns for [{% named a b tag_name=c %}]. *)
Definition NamedTag_class : TagClass :=
  mkTagClass "NamedTag" ["tag_name"] (Some 0%Z) (Some 1%Z) true true PyNone "value".

Definition named_parse_token_kwargs (parser : unit) (token : TokenArg)
    (allowed : list string) (compile_args compile_kwargs : bool)
    : Result (string * list pyval * gmap string pyval) :=
  Return ("named", [PyFilterExpression "a"; PyFilterExpression "b"],
          {[ "tag_name" := PyFilterExpression "c" ]}).

(** A tag with up to two positional arguments. *)
Definition PairTag_class : TagClass :=
  mkTagClass "PairTag" [] (Some 0%Z) (Some 2%Z) true true PyNone "value".

(** The bounds of a class leave room for some number of arguments. *)
Definition consistent_bounds (cls : TagClass) : Prop :=
  match max_args cls with
  | Some M =>
      (0 ≤ M)%Z ∧
      match min_args cls with
      | Some m => (m ≤ M)%Z
      | None => True
      end
  | None => True
  end.

(** A resolver that raises on a variable the context does not bind. *)
Definition strict_resolve (token : string) (context : Context) : Result pyval :=
  match first_binding token (scopes context) with
  | Some v => Return v
  | None => Raise (OtherError "VariableDoesNotExist" token)
  end.

(** A loader with two templates, one of them without nodes. *)
Definition shelf_get_template (name : pyval) : Result Template :=
  if bool_decide (name = PyStr "hello.html")
  then Return (mkTemplate [TextNode "Hello "; VariableNode "value"])
  else if bool_decide (name = PyStr "empty.html")
  then Return (mkTemplate [])
  else Raise (OtherError "TemplateDoesNotExist" "shelf").

Definition EmptyTag_class : TagClass :=
  mkTagClass "EmptyTag" ["template"] (Some 0%Z) (Some 1%Z) true true
             (PyStr "empty.html") "value".

Definition empty_node : Node :=
  BaseNode_init EmptyTag_class "empty" [] ∅.

Definition missing_node : Node :=
  BaseNode_init HelloTag_class "hello" [PyFilterExpression "who"; PyFilterExpression "nobody"] ∅.

Definition blank_as_node : Node :=
  BaseAssignmentOrInclusionNode_init HelloTag_class "hello" (Some EmptyString)
                                     [PyFilterExpression "who"] ∅.



(** * Properties *)

(** ** Contexts *)

Lemma any_binds_true key ds :
  any_binds key ds = true ↔ ∃ d, d ∈ ds ∧ is_Some (d !! key).
Proof.
  induction ds as [|d ds IH]; simpl.
  - split; [done | intros (d & Hd & _); by apply elem_of_nil in Hd].
  - destruct (d !! key) as [v|] eqn:Hk.
    + split; [intros _ | done]. exists d. split; [left | by rewrite Hk].
    + rewrite IH. split.
      * intros (d' & Hd' & Hs). exists d'. split; [by right | done].
      * intros (d' & Hd' & Hs). apply elem_of_cons in Hd' as [-> | Hd'].
        -- rewrite Hk in Hs. by destruct Hs.
        -- by exists d'.
Qed.

Lemma first_binding_is_Some key ds :
  is_Some (first_binding key ds) ↔ ∃ d, d ∈ ds ∧ is_Some (d !! key).
Proof.
  induction ds as [|d ds IH]; simpl.
  - split; [by intros [? ?] | intros (d & Hd & _); by apply elem_of_nil in Hd].
  - destruct (d !! key) as [v|] eqn:Hk.
    + split; [intros _ | by eauto]. exists d. split; [left | by rewrite Hk].
    + rewrite IH. split.
      * intros (d' & Hd' & Hs). exists d'. split; [by right | done].
      * intros (d' & Hd' & Hs). apply elem_of_cons in Hd' as [-> | Hd'].
        -- rewrite Hk in Hs. by destruct Hs.
        -- by exists d'.
Qed.

Lemma has_key_bound c key : has_key c key = true ↔ bound c key.
Proof.
  unfold has_key, bound. rewrite any_binds_true.
  split; intros (d & Hd & Hs); exists d; split; try done.
  - by rewrite elem_of_reverse in Hd.
  - by rewrite elem_of_reverse.
Qed.

Lemma first_binding_bound c key :
  is_Some (first_binding key (scopes c)) ↔ bound c key.
Proof. apply first_binding_is_Some. Qed.

Lemma has_key_false_unbound c key : has_key c key = false ↔ ¬ bound c key.
Proof. rewrite <- has_key_bound. by destruct (has_key c key). Qed.

Lemma first_binding_setitem_ne c key name value :
  key ≠ name →
  first_binding key (scopes (setitem c name value)) = first_binding key (scopes c).
Proof. intros Hne. simpl. by rewrite lookup_insert_ne. Qed.

Lemma first_binding_setitem_eq c name value :
  first_binding name (scopes (setitem c name value)) = Some value.
Proof. simpl. by rewrite lookup_insert_eq. Qed.

Lemma has_key_setitem_ne c key name value :
  key ≠ name → has_key (setitem c name value) key = has_key c key.
Proof.
  intros Hne. apply eq_true_iff_eq.
  rewrite !has_key_bound, <- !first_binding_bound.
  by rewrite first_binding_setitem_ne.
Qed.

(** ** Keyword arguments *)

Lemma collides_false params kwargs :
  collides params kwargs = false ↔ binds params kwargs.
Proof.
  unfold collides, binds. induction params as [|q params IH]; simpl.
  - split; [intros _ p Hp; by apply elem_of_nil in Hp | done].
  - rewrite orb_false_iff, IH, bool_decide_eq_false. split.
    + intros [Hq Hps] p Hp. apply elem_of_cons in Hp as [-> | Hp]; [|by auto].
      destruct (kwargs !! q) eqn:Hk; [|done]. destruct Hq. by eexists.
    + intros H. split.
      * rewrite (H q) by left. by intros [? ?].
      * intros p Hp. apply H. by right.
Qed.

Lemma bind_kwargs_cases callee params kwargs :
  (binds params kwargs ∧ bind_kwargs callee params kwargs = Return tt) ∨
  (¬ binds params kwargs ∧ bind_kwargs callee params kwargs = Raise (TypeError callee)).
Proof.
  unfold bind_kwargs. destruct (collides params kwargs) eqn:Hc.
  - right. split; [|done]. intros Hb. apply collides_false in Hb. congruence.
  - left. split; [by apply collides_false | done].
Qed.

Lemma bind_kwargs_binds callee params kwargs :
  binds params kwargs → bind_kwargs callee params kwargs = Return tt.
Proof.
  intros Hb. by destruct (bind_kwargs_cases callee params kwargs) as [[_ ?] | [? _]].
Qed.

Lemma bind_kwargs_collides callee params kwargs :
  ¬ binds params kwargs → bind_kwargs callee params kwargs = Raise (TypeError callee).
Proof.
  intros Hb. by destruct (bind_kwargs_cases callee params kwargs) as [[? _] | [_ ?]].
Qed.

Lemma binds_empty params : binds params ∅.
Proof. intros p _. apply lookup_empty. Qed.

(** ** Argument counts *)

Lemma below_min_Some cls n :
  is_Some (below_min cls n) ↔ ∃ m, min_args cls = Some m ∧ (Z.of_nat n < m)%Z.
Proof.
  unfold below_min. destruct (min_args cls) as [m|].
  - case_bool_decide.
    + split; [by eauto | by eauto].
    + split; [by intros [? ?] | intros (? & [= <-] & ?); lia].
  - split; [by intros [? ?] | by intros (? & ? & ?)].
Qed.

Lemma above_max_Some cls n :
  is_Some (above_max cls n) ↔ ∃ m, max_args cls = Some m ∧ (Z.of_nat n > m)%Z.
Proof.
  unfold above_max. destruct (max_args cls) as [m|].
  - case_bool_decide.
    + split; [by eauto | by eauto].
    + split; [by intros [? ?] | intros (? & [= <-] & ?); lia].
  - split; [by intros [? ?] | by intros (? & ? & ?)].
Qed.

Lemma validate_args_cases cls tag_name args kwargs :
  (out_of_bounds cls (length args) ∧
   ∃ msg, validate_args cls tag_name args kwargs = Raise (TemplateSyntaxError msg)) ∨
  (¬ out_of_bounds cls (length args) ∧
   validate_args cls tag_name args kwargs = Return tt).
Proof.
  unfold validate_args, out_of_bounds.
  destruct (below_min cls (length args)) as [m|] eqn:Hmin.
  { left. split; [left; apply below_min_Some; by rewrite Hmin | by eauto]. }
  destruct (above_max cls (length args)) as [m|] eqn:Hmax.
  { left. split; [right; apply above_max_Some; by rewrite Hmax | by eauto]. }
  right. split; [|done]. intros [H|H].
  - apply below_min_Some in H. rewrite Hmin in H. by destruct H.
  - apply above_max_Some in H. rewrite Hmax in H. by destruct H.
Qed.

Lemma validate_args_ignores_kwargs cls tag_name args kwargs kwargs' :
  validate_args cls tag_name args kwargs = validate_args cls tag_name args kwargs'.
Proof. reflexivity. Qed.

(** C1. [validate_args] raises a [TemplateSyntaxError] exactly when the
    number of positional arguments is below a declared [min_args] or above
    a declared [max_args] (a bound that is [None] never fails), and it
    returns normally exactly when the count is within the bounds. *)
Theorem validate_args_arity (cls : TagClass) (tag_name : string)
    (args : list pyval) (kwargs : gmap string pyval) :
  ((∃ msg, validate_args cls tag_name args kwargs = Raise (TemplateSyntaxError msg))
     ↔ out_of_bounds cls (length args)) ∧
  (validate_args cls tag_name args kwargs = Return tt
     ↔ ¬ out_of_bounds cls (length args)) ∧
  (∀ e, validate_args cls tag_name args kwargs = Raise e → is_TemplateSyntaxError e).
Proof.
  destruct (validate_args_cases cls tag_name args kwargs)
    as [(Hout & msg & ->) | (Hin & ->)].
  - split_and!.
    + split; [done | by eauto].
    + split; [done | intros H; by destruct H].
    + intros e [= <-]. by exists msg.
  - split_and!.
    + split; [by intros (? & ?) | done].
    + done.
    + by intros e.
Qed.

(** ** The request *)

(** C4. [get_request] raises exactly when the context has no ['request']
    variable, the exception is then [ImproperlyConfigured], and with the
    variable present it returns [context['request']]. *)
Theorem get_request_request_variable (self : Node) (context : Context) :
  (raises (get_request self context) ↔ ¬ bound context "request") ∧
  (∀ e, get_request self context = Raise e → is_ImproperlyConfigured e) ∧
  (bound context "request" →
   ∃ v, getitem context "request" = Return v ∧
        get_request self context = Return v).
Proof.
  unfold get_request, getitem.
  destruct (has_key context "request") eqn:Hk; cbn [negb].
  - apply has_key_bound in Hk as Hb.
    apply first_binding_bound in Hb as [v Hv]. rewrite Hv.
    split_and!.
    + split; [by intros [e ?] | intros Hn; destruct Hn; by apply has_key_bound].
    + by intros e.
    + intros _. by exists v.
  - apply has_key_false_unbound in Hk as Hb. split_and!.
    + split; [done | intros _; by eexists].
    + intros e [= <-]. by eexists.
    + done.
Qed.

(** ** The template of an inclusion tag *)

(** C9. [get_template_name] returns the ['template'] keyword argument when
    the invocation has one and the class's [template_name] otherwise;
    [BaseInclusionNode.template_name] is [None]. *)
Theorem get_template_name_precedence (self : Node) (tag_args : list pyval)
    (tag_kwargs : gmap string pyval) :
  (∀ name, tag_kwargs !! "template" = Some name →
           get_template_name self tag_args tag_kwargs = name) ∧
  (tag_kwargs !! "template" = None →
   get_template_name self tag_args tag_kwargs = template_name (node_class self)) ∧
  template_name BaseInclusionNode_class = PyNone.
Proof.
  unfold get_template_name. split_and!; [| |done].
  - by intros name ->.
  - by intros ->.
Qed.

(** ** The context of the included template *)

Lemma get_context_csrf_token parent_context data :
  let token := get parent_context "csrf_token" PyNone in
  get_context parent_context data =
    if bool_decide (token ≠ PyNone)
    then mkContext (<["csrf_token" := token]> data) [builtins]
                   (autoescape parent_context)
    else mkContext data [builtins] (autoescape parent_context).
Proof. reflexivity. Qed.

Lemma get_context_autoescape parent_context data :
  autoescape (get_context parent_context data) = autoescape parent_context.
Proof. unfold get_context. by case_bool_decide. Qed.

Lemma get_context_lookup_ne parent_context data key :
  key ≠ "csrf_token" →
  first_binding key (scopes (get_context parent_context data))
  = match data !! key with
    | Some value => Some value
    | None => builtins !! key
    end.
Proof.
  intros Hne. unfold get_context. case_bool_decide; cbn [scopes top below
    first_binding Context_new setitem].
  - rewrite lookup_insert_ne; [|done].
    destruct (data !! key); [done |]. by destruct (builtins !! key).
  - destruct (data !! key); [done |]. by destruct (builtins !! key).
Qed.

Lemma get_of_getitem c key v :
  getitem c key = Return v → get c key PyNone = v.
Proof.
  unfold getitem, get. destruct (first_binding key (scopes c)); [|done].
  by intros [= ->].
Qed.

Lemma get_context_passes_csrf_token parent_context data token :
  get parent_context "csrf_token" PyNone = token →
  token ≠ PyNone →
  getitem (get_context parent_context data) "csrf_token" = Return token.
Proof.
  intros Hget Hne. unfold get_context. rewrite Hget.
  rewrite bool_decide_eq_true_2; [|done].
  unfold getitem. by rewrite first_binding_setitem_eq.
Qed.

(** C2, as stated, fails: a variable of the parent context that the data
    does not bind is not a variable of the new context. *)
Lemma get_context_not_inherited :
  ¬ inherited_context (Context_new {["x" := PyInt 1]} true) ∅.
Proof.
  intros (Hinh & _).
  assert (bound (Context_new {["x" := PyInt 1]} true) "x") as Hb.
  { exists {["x" := PyInt 1]}. split; [left | by rewrite lookup_singleton_eq]. }
  apply Hinh, has_key_bound in Hb. vm_compute in Hb. discriminate.
Qed.

(** C2, amended. [get_context] returns a context built from the computed
    data and from two things of the parent, its autoescape flag and its
    non-[None] ['csrf_token']: it has the parent's autoescape flag; it holds
    the parent's ['csrf_token'] when that is not [None]; it binds the names
    of the data, ['csrf_token'] apart, to the data's values; and it is not
    inherited from the parent: two parents with the same flag and the same
    ['csrf_token'] give the same context. *)
Theorem get_context_from_data (parent_context : Context)
    (data : gmap string pyval) :
  let new_context := get_context parent_context data in
  autoescape new_context = autoescape parent_context ∧
  (∀ token, getitem parent_context "csrf_token" = Return token →
            token ≠ PyNone →
            getitem new_context "csrf_token" = Return token) ∧
  (∀ key value, key ≠ "csrf_token" → data !! key = Some value →
                getitem new_context key = Return value) ∧
  (∀ parent', autoescape parent' = autoescape parent_context →
              get parent' "csrf_token" PyNone = get parent_context "csrf_token" PyNone →
              get_context parent' data = new_context).
Proof.
  cbn zeta. split_and!.
  - apply get_context_autoescape.
  - intros token Hget Hne.
    apply get_context_passes_csrf_token; [by apply get_of_getitem | done].
  - intros key value Hne Hdata. unfold getitem.
    rewrite get_context_lookup_ne by done. by rewrite Hdata.
  - intros parent' Hae Hget. unfold get_context. by rewrite Hae, Hget.
Qed.

(** ** Rendering *)

Ltac run_M :=
  unfold mbind, M_bind, mret, M_ret, lift, get_self, get_parent_context,
         set_nodelist, context_setitem; cbn [st_self st_context fst snd].

Lemma mapM_Return {A B} (f : A → Result B) (l : list A) (ks : list B) :
  mapM f l = Return ks ↔ Forall2 (λ x y, f x = Return y) l ks.
Proof.
  revert ks. induction l as [|x l IH]; intros ks; simpl.
  - split; [intros [= <-]; constructor | by inversion 1].
  - unfold mbind, Result_bind, mret, Result_ret.
    destruct (f x) as [y|e] eqn:Hx.
    + destruct (mapM f l) as [ks'|e] eqn:Hl.
      * split.
        -- intros [= <-]. constructor; [done | by apply IH].
        -- inversion 1 as [|? y' ? ks'' Hy Hks]; subst.
           apply IH in Hks. congruence.
      * split; [done |].
        inversion 1 as [|? y' ? ks'' Hy Hks]; subst.
        apply IH in Hks. congruence.
    + split; [done |]. inversion 1; congruence.
Qed.

Lemma mapM_Return_total {A B} (f : A → Result B) (l : list A) :
  Forall (λ x, ∃ y, f x = Return y) l → ∃ ks, mapM f l = Return ks.
Proof.
  induction 1 as [|x l [y Hy] _ [ks Hks]]; simpl.
  - by eexists.
  - rewrite Hy. simpl. rewrite Hks. by eexists.
Qed.

Section RenderingProperties.

Variable resolve : string → Context → Result pyval.
Variable get_template : pyval → Result Template.
Variable nodelist_render : NodeList → Context → Result string.
Variable get_value : Node → list pyval → gmap string pyval → Result pyval.
Variable get_context_data :
  Node → Context → list pyval → gmap string pyval → Result (gmap string pyval).

Lemma resolve_args_passed self context tag_args :
  resolve_args resolve self context = Return tag_args ↔
  passed_args resolve self context tag_args.
Proof.
  unfold resolve_args, passed_args. destruct (compile_args (node_class self)).
  - apply mapM_Return.
  - split; [by intros [= <-] | by intros ->].
Qed.

Lemma resolve_item_Return context item item' :
  resolve_item resolve context item = Return item' ↔
  item'.1 = item.1 ∧ resolve_expr resolve context item.2 = Return item'.2.
Proof.
  unfold resolve_item, mbind, Result_bind, mret, Result_ret.
  destruct item as [k e], item' as [k' v]; simpl.
  destruct (resolve_expr resolve context e) as [v'|err].
  - split; [by intros [= <- <-] | by intros [-> [= ->]]].
  - split; [done | by intros [_ ?]].
Qed.

Lemma resolved_items_lookup context (m : gmap string pyval) items name :
  Forall2 (λ x y, resolve_item resolve context x = Return y) (map_to_list m) items →
  option_Forall2 (λ expr value, resolve_expr resolve context expr = Return value)
                 (m !! name) ((list_to_map items : gmap string pyval) !! name).
Proof.
  intros HF.
  assert (items.*1 = (map_to_list m).*1) as Hfst.
  { clear name. induction HF as [|x y l l' Hxy _ IH]; [done |].
    rewrite !fmap_cons. apply resolve_item_Return in Hxy as [Hxy _].
    by f_equal. }
  assert (NoDup items.*1) as Hnd.
  { rewrite Hfst. apply NoDup_fst_map_to_list. }
  destruct (m !! name) as [e|] eqn:Hm.
  - apply elem_of_map_to_list in Hm.
    apply list_elem_of_lookup in Hm as [i Hi].
    destruct (Forall2_lookup_l _ _ _ _ _ HF Hi) as ([k v] & Hi' & Hr).
    apply resolve_item_Return in Hr as [Hk Hv]. simpl in Hk, Hv. subst k.
    rewrite (elem_of_list_to_map_1 items name v Hnd).
    + by constructor.
    + apply list_elem_of_lookup. by exists i.
  - rewrite not_elem_of_list_to_map_1; [constructor |].
    rewrite Hfst. intros Hin.
    apply list_elem_of_fmap in Hin as ([k e] & -> & Hin).
    apply elem_of_map_to_list in Hin. simpl in Hm. congruence.
Qed.

Lemma resolve_kwargs_passed self context tag_kwargs :
  resolve_kwargs resolve self context = Return tag_kwargs ↔
  passed_kwargs resolve self context tag_kwargs.
Proof.
  unfold resolve_kwargs, passed_kwargs.
  destruct (compile_kwargs (node_class self));
    [| split; [by intros [= <-] | by intros ->] ].
  split.
  - destruct (mapM _ _) as [items|e] eqn:HM; [|done].
    intros [= <-] name. apply mapM_Return in HM.
    by apply resolved_items_lookup.
  - intros Hrel.
    destruct (mapM_Return_total (resolve_item resolve context)
                (map_to_list (kwargs self))) as [items HM].
    { apply Forall_forall. intros [k e] Hin.
      apply elem_of_map_to_list in Hin. specialize (Hrel k).
      rewrite Hin in Hrel. inversion Hrel as [? v Hv|]; subst.
      exists (k, v). by apply resolve_item_Return. }
    rewrite HM. simpl. unfold mret, Result_ret. f_equal. apply mapM_Return in HM.
    apply map_eq. intros name.
    pose proof (resolved_items_lookup context _ _ name HM) as H1.
    specialize (Hrel name).
    destruct H1 as [e v Hv|]; inversion Hrel as [? v' Hv'|]; subst; [|done].
    congruence.
Qed.

(** C6. [render] resolves every stored positional expression and every
    stored keyword expression against the current context and calls
    [render_tag] with the values, positional ones in their order and keyword
    ones under their names; arguments whose compile flag is false are passed
    as they are stored. *)
Theorem render_resolves_arguments
    (render_tag : list pyval → gmap string pyval → M string)
    (self : Node) (context : Context)
    (tag_args : list pyval) (tag_kwargs : gmap string pyval) :
  passed_args resolve self context tag_args →
  passed_kwargs resolve self context tag_kwargs →
  render resolve render_tag (mkState self context)
  = render_tag tag_args tag_kwargs (mkState self context).
Proof.
  intros Ha Hk.
  apply resolve_args_passed in Ha. apply resolve_kwargs_passed in Hk.
  unfold render. run_M. by rewrite Ha, Hk.
Qed.

Lemma render_unfold render_tag self context :
  render resolve render_tag (mkState self context) =
    match resolve_args resolve self context with
    | Raise e => (Raise e, mkState self context)
    | Return tag_args =>
        match resolve_kwargs resolve self context with
        | Raise e => (Raise e, mkState self context)
        | Return tag_kwargs => render_tag tag_args tag_kwargs (mkState self context)
        end
    end.
Proof.
  unfold render. run_M.
  destruct (resolve_args resolve self context); [|done].
  by destruct (resolve_kwargs resolve self context).
Qed.

Lemma nodelist_truthy_Some self :
  nodelist_truthy self = true ↔ ∃ nl, nodelist self = Some nl ∧ nl ≠ [].
Proof.
  unfold nodelist_truthy. destruct (nodelist self) as [[|n nl]|].
  - split; [done | by intros (? & [= <-] & ?)].
  - split; [by eauto | done].
  - split; [done | by intros (? & ? & ?)].
Qed.

(** With a non-empty [nodelist] on the node the template is not loaded. *)
Lemma BaseInclusionNode_render_tag_cached gcd self context tag_args tag_kwargs nl :
  nodelist self = Some nl → nl ≠ [] →
  BaseInclusionNode_render_tag get_template nodelist_render gcd
      tag_args tag_kwargs (mkState self context)
  = (data ← gcd self context tag_args tag_kwargs;
     nodelist_render nl (get_context context data),
     mkState self context).
Proof.
  intros Hnl Hne. unfold BaseInclusionNode_render_tag. run_M.
  unfold nodelist_truthy. rewrite Hnl. destruct nl as [|n nl]; [done |].
  cbn [negb st_self st_context]. rewrite Hnl.
  by destruct (gcd self context tag_args tag_kwargs).
Qed.

(** Without one the template is loaded and its nodes are stored on the node. *)
Lemma BaseInclusionNode_render_tag_load gcd self context tag_args tag_kwargs tpl :
  nodelist_truthy self = false →
  get_template (get_template_name self tag_args tag_kwargs) = Return tpl →
  BaseInclusionNode_render_tag get_template nodelist_render gcd
      tag_args tag_kwargs (mkState self context)
  = (data ← gcd (with_nodelist self (tpl_nodelist tpl)) context tag_args tag_kwargs;
     nodelist_render (tpl_nodelist tpl) (get_context context data),
     mkState (with_nodelist self (tpl_nodelist tpl)) context).
Proof.
  intros Hf Htpl. unfold BaseInclusionNode_render_tag. run_M.
  rewrite Hf. cbn [negb]. rewrite Htpl. cbn [st_self st_context].
  by destruct (gcd _ context tag_args tag_kwargs).
Qed.

Lemma BaseInclusionNode_render_tag_load_raises gcd self context tag_args tag_kwargs e :
  nodelist_truthy self = false →
  get_template (get_template_name self tag_args tag_kwargs) = Raise e →
  BaseInclusionNode_render_tag get_template nodelist_render gcd
      tag_args tag_kwargs (mkState self context)
  = (Raise e, mkState self context).
Proof.
  intros Hf Htpl. unfold BaseInclusionNode_render_tag. run_M.
  rewrite Hf. cbn [negb]. by rewrite Htpl.
Qed.

(** The state an inclusion leaves: the context as it was, the node as it
    was or with the loaded template's nodes. *)
Lemma BaseInclusionNode_render_tag_state gcd self context tag_args tag_kwargs :
  let st' := (BaseInclusionNode_render_tag get_template nodelist_render gcd
                tag_args tag_kwargs (mkState self context)).2 in
  st_context st' = context ∧
  (st_self st' = self ∨
   nodelist_truthy self = false ∧
   ∃ tpl, get_template (get_template_name self tag_args tag_kwargs) = Return tpl ∧
          st_self st' = with_nodelist self (tpl_nodelist tpl)).
Proof.
  destruct (nodelist_truthy self) eqn:Ht.
  - apply nodelist_truthy_Some in Ht as (nl & Hnl & Hne).
    rewrite (BaseInclusionNode_render_tag_cached _ _ _ _ _ nl) by done.
    simpl. by auto.
  - destruct (get_template (get_template_name self tag_args tag_kwargs))
      as [tpl|e] eqn:Htpl.
    + rewrite (BaseInclusionNode_render_tag_load _ _ _ _ _ tpl) by done.
      simpl. split; [done |]. right. split; [done | by exists tpl].
    + rewrite (BaseInclusionNode_render_tag_load_raises _ _ _ _ _ e) by done.
      simpl. by auto.
Qed.

Lemma BaseAssignmentOrInclusionNode_render_tag_assign
    self context tag_args tag_kwargs name :
  as_var self = Some name → name ≠ EmptyString →
  BaseAssignmentOrInclusionNode_render_tag get_template nodelist_render get_value
      tag_args tag_kwargs (mkState self context)
  = match get_value self tag_args tag_kwargs with
    | Return value => (Return EmptyString, mkState self (setitem context name value))
    | Raise e => (Raise e, mkState self context)
    end.
Proof.
  intros Has Hne. unfold BaseAssignmentOrInclusionNode_render_tag. run_M.
  rewrite Has. rewrite bool_decide_eq_true_2 by done.
  by destruct (get_value self tag_args tag_kwargs).
Qed.

Lemma BaseAssignmentOrInclusionNode_render_tag_include
    self context tag_args tag_kwargs :
  as_var self = None ∨ as_var self = Some EmptyString →
  BaseAssignmentOrInclusionNode_render_tag get_template nodelist_render get_value
      tag_args tag_kwargs (mkState self context)
  = BaseInclusionNode_render_tag get_template nodelist_render
      (BaseAssignmentOrInclusionNode_get_context_data get_value)
      tag_args tag_kwargs (mkState self context).
Proof.
  intros Has. unfold BaseAssignmentOrInclusionNode_render_tag. run_M.
  destruct Has as [-> | ->]; [done |].
  by rewrite bool_decide_eq_false_2 by (intros H; by apply H).
Qed.




Lemma call_render_tag_unfold render_tag tag_args tag_kwargs st :
  call_render_tag render_tag tag_args tag_kwargs st
  = match bind_kwargs "render_tag" ["self"; "context"] tag_kwargs with
    | Return _ => render_tag tag_args tag_kwargs st
    | Raise e => (Raise e, st)
    end.
Proof.
  unfold call_render_tag. run_M.
  by destruct (bind_kwargs "render_tag" ["self"; "context"] tag_kwargs).
Qed.

(** The state [render_tag] leaves, for each of the three base classes. *)
Lemma render_tag_of_state base self context tag_args tag_kwargs :
  let st' := (render_tag_of get_template nodelist_render get_value get_context_data
                base tag_args tag_kwargs (mkState self context)).2 in
  (st_self st' = self ∨
   base ≠ IsBaseNode ∧ nodelist_truthy self = false ∧
   ∃ tpl, get_template (get_template_name self tag_args tag_kwargs) = Return tpl ∧
          st_self st' = with_nodelist self (tpl_nodelist tpl)) ∧
  (st_context st' = context ∨
   base = IsBaseAssignmentOrInclusionNode ∧
   ∃ name value, as_var self = Some name ∧ name ≠ EmptyString ∧
                 get_value self tag_args tag_kwargs = Return value ∧
                 st_context st' = setitem context name value).
Proof.
  cbn zeta. unfold render_tag_of. rewrite call_render_tag_unfold.
  destruct (bind_kwargs "render_tag" ["self"; "context"] tag_kwargs) as [[]|e];
    [|simpl; by auto].
  destruct base.
  - unfold BaseNode_render_tag. run_M. simpl. by auto.
  - destruct (BaseInclusionNode_render_tag_state get_context_data self context
                tag_args tag_kwargs) as [Hc [Hs | (Hf & tpl & Htpl & Hs)]].
    + by auto.
    + split; [|by auto]. right. split_and!; [done | done |]. by exists tpl.
  - destruct (as_var self) as [name|] eqn:Has;
      [destruct (decide (name = EmptyString)) as [-> | Hne] |].
    + rewrite BaseAssignmentOrInclusionNode_render_tag_include by (by right).
      destruct (BaseInclusionNode_render_tag_state
                  (BaseAssignmentOrInclusionNode_get_context_data get_value)
                  self context tag_args tag_kwargs)
        as [Hc [Hs | (Hf & tpl & Htpl & Hs)]].
      * by auto.
      * split; [|by auto]. right. split_and!; [done | done |]. by exists tpl.
    + rewrite (BaseAssignmentOrInclusionNode_render_tag_assign _ _ _ _ name) by done.
      destruct (get_value self tag_args tag_kwargs) as [value|e] eqn:Hv; simpl.
      * split; [by left |]. right. split; [done |]. by exists name, value.
      * by auto.
    + rewrite BaseAssignmentOrInclusionNode_render_tag_include by (by left).
      destruct (BaseInclusionNode_render_tag_state
                  (BaseAssignmentOrInclusionNode_get_context_data get_value)
                  self context tag_args tag_kwargs)
        as [Hc [Hs | (Hf & tpl & Htpl & Hs)]].
      * by auto.
      * split; [|by auto]. right. split_and!; [done | done |]. by exists tpl.
Qed.

(** C5, amended. [render] writes no field of the node but [nodelist]: the
    class, [tag_name], [args], [kwargs] and [as_var] are as before; the node
    of a plain [BaseNode], or one whose [nodelist] is set and not empty, is
    unchanged; in the remaining case the node is unchanged or its
    [nodelist] now holds the nodes of a template [get_template] returned. *)
Theorem render_writes_nodelist_only (base : BaseClass) (self : Node)
    (context : Context) :
  let st' := (render resolve
                (render_tag_of get_template nodelist_render get_value
                               get_context_data base)
                (mkState self context)).2 in
  (node_class (st_self st') = node_class self ∧
   tag_name (st_self st') = tag_name self ∧
   args (st_self st') = args self ∧
   kwargs (st_self st') = kwargs self ∧
   as_var (st_self st') = as_var self) ∧
  (base = IsBaseNode → st_self st' = self) ∧
  (nodelist_truthy self = true → st_self st' = self) ∧
  (st_self st' = self ∨
   ∃ name tpl, get_template name = Return tpl ∧
               st_self st' = with_nodelist self (tpl_nodelist tpl)).
Proof.
  cbn zeta. rewrite render_unfold.
  destruct (resolve_args resolve self context) as [tag_args|e];
    [|simpl; split_and!; by auto].
  destruct (resolve_kwargs resolve self context) as [tag_kwargs|e];
    [|simpl; split_and!; by auto].
  destruct (render_tag_of_state base self context tag_args tag_kwargs)
    as [[Hs | (Hb & Hf & tpl & Htpl & Hs)] _].
  - rewrite Hs. split_and!; by auto.
  - rewrite Hs. split_and!; try done.
    + intros Ht. congruence.
    + right. by exists (get_template_name self tag_args tag_kwargs), tpl.
Qed.

(** C10. With a non-empty [as_var], [render_tag] changes the context at
    most by the assignment [context[as_var] = value]: the dicts below the
    innermost one and the autoescape flag are untouched, and every name
    other than [as_var] is bound as before. *)
Theorem render_tag_writes_as_var_only (self : Node) (context : Context)
    (tag_args : list pyval) (tag_kwargs : gmap string pyval) (name : string) :
  as_var self = Some name → name ≠ EmptyString →
  let context' :=
    st_context (BaseAssignmentOrInclusionNode_render_tag
                  get_template nodelist_render get_value
                  tag_args tag_kwargs (mkState self context)).2 in
  (context' = context ∨
   ∃ value, get_value self tag_args tag_kwargs = Return value ∧
            context' = setitem context name value) ∧
  below context' = below context ∧
  autoescape context' = autoescape context ∧
  (∀ key, key ≠ name →
     top context' !! key = top context !! key ∧
     first_binding key (scopes context') = first_binding key (scopes context) ∧
     has_key context' key = has_key context key).
Proof.
  intros Has Hne. cbn zeta.
  rewrite (BaseAssignmentOrInclusionNode_render_tag_assign _ _ _ _ name) by done.
  destruct (get_value self tag_args tag_kwargs) as [value|e]; simpl.
  - split_and!; [right; by exists value | done | done |].
    intros key Hk. split_and!.
    + by rewrite lookup_insert_ne.
    + by rewrite lookup_insert_ne.
    + by apply has_key_setitem_ne.
  - split_and!; by auto.
Qed.

End RenderingProperties.

(** ** Parsing *)

Section ParsingProperties.

Variable Parser : Type.
Variable parse_token_kwargs :
  Parser → TokenArg → list string → bool → bool
  → Result (string * list pyval * gmap string pyval).
Variable parse_as_var : Parser → TokenArg → Result (list string * option string).

Lemma BaseNode_parse_parsed cls parser token tag_name args kwargs :
  parse_token_kwargs parser token (allowed_kwargs cls)
                     (compile_args cls) (compile_kwargs cls)
    = Return (tag_name, args, kwargs) →
  BaseNode_parse Parser parse_token_kwargs cls parser token
  = (call_validate_args cls tag_name args kwargs;;
     BaseNode_new cls tag_name args kwargs).
Proof. intros H. unfold BaseNode_parse. by rewrite H. Qed.

Lemma BaseAssignmentOrInclusionNode_parse_parsed
    cls parser token bits as_var tag_name args kwargs :
  parse_as_var parser token = Return (bits, as_var) →
  parse_token_kwargs parser (Bits bits)
                     (BaseAssignmentOrInclusionNode_allowed_kwargs cls)
                     (compile_args cls) (compile_kwargs cls)
    = Return (tag_name, args, kwargs) →
  BaseAssignmentOrInclusionNode_parse Parser parse_token_kwargs parse_as_var
      cls parser token
  = (validate_args cls tag_name args ∅;;
     BaseAssignmentOrInclusionNode_new cls tag_name as_var args kwargs).
Proof.
  intros Hv Hp. unfold BaseAssignmentOrInclusionNode_parse.
  rewrite Hv. simpl. by rewrite Hp.
Qed.

Lemma validated_cases cls tag_name args kwargs (next : Result Node) :
  (out_of_bounds cls (length args) ∧
   ∃ msg, (validate_args cls tag_name args kwargs;; next)
          = Raise (TemplateSyntaxError msg)) ∨
  (¬ out_of_bounds cls (length args) ∧
   (validate_args cls tag_name args kwargs;; next) = next).
Proof.
  destruct (validate_args_cases cls tag_name args kwargs)
    as [(Hout & msg & ->) | (Hin & ->)]; [left | right]; by eauto.
Qed.

(** The four ways [BaseNode.parse] ends once the helper has returned. *)
Lemma BaseNode_parse_cases cls tag_name args kwargs :
  let parsed := (call_validate_args cls tag_name args kwargs;;
                 BaseNode_new cls tag_name args kwargs) in
  (¬ binds ["cls"; "tag_name"] kwargs ∧
   parsed = Raise (TypeError "validate_args")) ∨
  (binds ["cls"; "tag_name"] kwargs ∧ out_of_bounds cls (length args) ∧
   ∃ msg, parsed = Raise (TemplateSyntaxError msg)) ∨
  (binds ["cls"; "tag_name"] kwargs ∧ ¬ out_of_bounds cls (length args) ∧
   ¬ binds ["self"; "tag_name"] kwargs ∧
   parsed = Raise (TypeError "__init__")) ∨
  (binds ["cls"; "tag_name"] kwargs ∧ ¬ out_of_bounds cls (length args) ∧
   binds ["self"; "tag_name"] kwargs ∧
   parsed = Return (BaseNode_init cls tag_name args kwargs)).
Proof.
  cbn zeta. unfold call_validate_args, BaseNode_new.
  destruct (bind_kwargs_cases "validate_args" ["cls"; "tag_name"] kwargs)
    as [[Hb ->] | [Hb ->]]; [|by left].
  right. cbn [mbind Result_bind].
  destruct (validate_args_cases cls tag_name args kwargs)
    as [(Hout & msg & ->) | (Hin & ->)].
  { left. split_and!; [done | done |]. by exists msg. }
  right. cbn [mbind Result_bind].
  destruct (bind_kwargs_cases "__init__" ["self"; "tag_name"] kwargs)
    as [[Hb' ->] | [Hb' ->]]; [right | left]; by split_and!.
Qed.

(** The three ways [BaseAssignmentOrInclusionNode.parse] ends once the
    helpers have returned. *)
Lemma BaseAssignmentOrInclusionNode_parse_cases cls tag_name as_var args kwargs :
  let parsed := (validate_args cls tag_name args ∅;;
                 BaseAssignmentOrInclusionNode_new cls tag_name as_var args kwargs) in
  (out_of_bounds cls (length args) ∧
   ∃ msg, parsed = Raise (TemplateSyntaxError msg)) ∨
  (¬ out_of_bounds cls (length args) ∧
   ¬ binds ["self"; "tag_name"; "as_var"] kwargs ∧
   parsed = Raise (TypeError "__init__")) ∨
  (¬ out_of_bounds cls (length args) ∧
   binds ["self"; "tag_name"; "as_var"] kwargs ∧
   parsed = Return (BaseAssignmentOrInclusionNode_init cls tag_name as_var args kwargs)).
Proof.
  cbn zeta. unfold BaseAssignmentOrInclusionNode_new.
  destruct (validate_args_cases cls tag_name args ∅)
    as [(Hout & msg & ->) | (Hin & ->)].
  { left. split; [done |]. by exists msg. }
  right. cbn [mbind Result_bind].
  destruct (bind_kwargs_cases "__init__" ["self"; "tag_name"; "as_var"] kwargs)
    as [[Hb ->] | [Hb ->]]; [right | left]; by split_and!.
Qed.

Lemma BaseNode_parse_Return cls parser token node :
  BaseNode_parse Parser parse_token_kwargs cls parser token = Return node →
  ∃ tag_name args kwargs,
    parse_token_kwargs parser token (allowed_kwargs cls)
                       (compile_args cls) (compile_kwargs cls)
      = Return (tag_name, args, kwargs) ∧
    node = BaseNode_init cls tag_name args kwargs ∧
    ¬ out_of_bounds cls (length args).
Proof.
  intros H.
  destruct (parse_token_kwargs parser token (allowed_kwargs cls)
              (compile_args cls) (compile_kwargs cls))
    as [[[tag_name args] kwargs]|e] eqn:Hp;
    [| unfold BaseNode_parse in H; by rewrite Hp in H].
  rewrite (BaseNode_parse_parsed _ _ _ _ _ _ Hp) in H.
  exists tag_name, args, kwargs. split; [done |].
  destruct (BaseNode_parse_cases cls tag_name args kwargs)
    as [(_ & Hr) | [(_ & _ & msg & Hr) | [(_ & _ & _ & Hr) | (_ & Hin & _ & Hr)]]];
    cbn zeta in Hr; rewrite Hr in H; try done.
  by injection H as <-.
Qed.

Lemma BaseAssignmentOrInclusionNode_parse_Return cls parser token node :
  BaseAssignmentOrInclusionNode_parse Parser parse_token_kwargs parse_as_var
      cls parser token = Return node →
  ∃ bits as_var tag_name args kwargs,
    parse_as_var parser token = Return (bits, as_var) ∧
    parse_token_kwargs parser (Bits bits)
                       (BaseAssignmentOrInclusionNode_allowed_kwargs cls)
                       (compile_args cls) (compile_kwargs cls)
      = Return (tag_name, args, kwargs) ∧
    node = BaseAssignmentOrInclusionNode_init cls tag_name as_var args kwargs ∧
    ¬ out_of_bounds cls (length args).
Proof.
  intros H.
  destruct (parse_as_var parser token) as [[bits as_var]|e] eqn:Hv;
    [| unfold BaseAssignmentOrInclusionNode_parse in H; by rewrite Hv in H].
  destruct (parse_token_kwargs parser (Bits bits)
              (BaseAssignmentOrInclusionNode_allowed_kwargs cls)
              (compile_args cls) (compile_kwargs cls))
    as [[[tag_name args] kwargs]|e] eqn:Hp;
    [| unfold BaseAssignmentOrInclusionNode_parse in H;
       rewrite Hv in H; simpl in H; by rewrite Hp in H].
  rewrite (BaseAssignmentOrInclusionNode_parse_parsed _ _ _ _ _ _ _ _ Hv Hp) in H.
  exists bits, as_var, tag_name, args, kwargs. split_and!; [done | done | |].
  all: destruct (BaseAssignmentOrInclusionNode_parse_cases cls tag_name as_var
                   args kwargs)
    as [(_ & msg & Hr) | [(_ & _ & Hr) | (Hin & _ & Hr)]];
    cbn zeta in Hr; rewrite Hr in H; try done.
  by injection H as <-.
Qed.

(** C7, as stated, fails: [{% named a b tag_name=c %}] has two positional
    arguments where [NamedTag] allows one, and [BaseNode.parse] raises the
    [TypeError] of the call of [validate_args], not a
    [TemplateSyntaxError]. *)
Lemma parse_invalid_arity_TypeError :
  ¬ invalid_arity_is_syntax_error named_parse_token_kwargs NamedTag_class tt
      (Token "named a b tag_name=c").
Proof.
  intros H.
  destruct (H "named" [PyFilterExpression "a"; PyFilterExpression "b"]
              {[ "tag_name" := PyFilterExpression "c" ]}) as [msg Hm].
  - reflexivity.
  - right. exists 1%Z. split; [reflexivity | simpl; lia].
  - vm_compute in Hm. discriminate.
Qed.

(** C7, amended. When the parsed positional arguments are outside the
    declared bounds, [parse] raises and returns no node: a node [parse]
    returns has a number of positional arguments within the bounds.  The
    exception is the [TemplateSyntaxError] of [validate_args], always for
    [BaseAssignmentOrInclusionNode.parse], and for [BaseNode.parse] unless a
    keyword argument is named [tag_name] or [cls]: these cannot be passed
    on to [validate_args], whose call raises [TypeError]. *)
Theorem parse_rejects_invalid_arity (cls : TagClass) (parser : Parser)
    (token : TokenArg) :
  (∀ tag_name args kwargs,
     parse_token_kwargs parser token (allowed_kwargs cls)
                        (compile_args cls) (compile_kwargs cls)
       = Return (tag_name, args, kwargs) →
     out_of_bounds cls (length args) →
     (binds ["cls"; "tag_name"] kwargs →
      ∃ msg, BaseNode_parse Parser parse_token_kwargs cls parser token
             = Raise (TemplateSyntaxError msg)) ∧
     (¬ binds ["cls"; "tag_name"] kwargs →
      BaseNode_parse Parser parse_token_kwargs cls parser token
      = Raise (TypeError "validate_args"))) ∧
  (∀ node,
     BaseNode_parse Parser parse_token_kwargs cls parser token = Return node →
     ¬ out_of_bounds cls (length (args node))) ∧
  (∀ bits as_var tag_name args kwargs,
     parse_as_var parser token = Return (bits, as_var) →
     parse_token_kwargs parser (Bits bits)
                        (BaseAssignmentOrInclusionNode_allowed_kwargs cls)
                        (compile_args cls) (compile_kwargs cls)
       = Return (tag_name, args, kwargs) →
     out_of_bounds cls (length args) →
     ∃ msg, BaseAssignmentOrInclusionNode_parse Parser parse_token_kwargs
              parse_as_var cls parser token
            = Raise (TemplateSyntaxError msg)) ∧
  (∀ node,
     BaseAssignmentOrInclusionNode_parse Parser parse_token_kwargs parse_as_var
       cls parser token = Return node →
     ¬ out_of_bounds cls (length (args node))).
Proof.
  split_and!.
  - intros tag_name args kwargs Hp Hout.
    rewrite (BaseNode_parse_parsed _ _ _ _ _ _ Hp).
    destruct (BaseNode_parse_cases cls tag_name args kwargs)
      as [(Hb & Hr) | [(Hb & _ & Hr) | [(_ & Hin & _) | (_ & Hin & _)]]];
      try done; cbn zeta in Hr; by split.
  - intros node H.
    by apply BaseNode_parse_Return in H as (tag_name & args & kwargs & _ & -> & Hin).
  - intros bits as_var tag_name args kwargs Hv Hp Hout.
    rewrite (BaseAssignmentOrInclusionNode_parse_parsed _ _ _ _ _ _ _ _ Hv Hp).
    by destruct (BaseAssignmentOrInclusionNode_parse_cases cls tag_name as_var
                   args kwargs)
      as [(_ & Hr) | [(Hin & _) | (Hin & _)]].
  - intros node H.
    by apply BaseAssignmentOrInclusionNode_parse_Return in H
      as (bits & as_var & tag_name & args & kwargs & _ & _ & -> & Hin).
Qed.

(** C8. [BaseAssignmentOrInclusionNode.parse] asks for the keywords
    ['template'] and the class's [allowed_kwargs], and for those only; it
    validates the positional arguments alone, with no keyword argument, so
    whether it raises the [TemplateSyntaxError] of the bounds depends on
    their number and on no keyword argument; within the bounds its outcome
    is that of the constructor call. *)
Theorem parse_template_keyword_and_arity (cls : TagClass) (parser : Parser)
    (token : TokenArg) :
  "template" ∈ BaseAssignmentOrInclusionNode_allowed_kwargs cls ∧
  (∀ name, name ∈ allowed_kwargs cls →
           name ∈ BaseAssignmentOrInclusionNode_allowed_kwargs cls) ∧
  (∀ helper,
     (∀ bits, helper parser (Bits bits)
                (BaseAssignmentOrInclusionNode_allowed_kwargs cls)
                (compile_args cls) (compile_kwargs cls)
              = parse_token_kwargs parser (Bits bits)
                  (BaseAssignmentOrInclusionNode_allowed_kwargs cls)
                  (compile_args cls) (compile_kwargs cls)) →
     BaseAssignmentOrInclusionNode_parse Parser helper parse_as_var cls parser token
     = BaseAssignmentOrInclusionNode_parse Parser parse_token_kwargs parse_as_var
         cls parser token) ∧
  (∀ bits as_var tag_name args kwargs,
     parse_as_var parser token = Return (bits, as_var) →
     parse_token_kwargs parser (Bits bits)
                        (BaseAssignmentOrInclusionNode_allowed_kwargs cls)
                        (compile_args cls) (compile_kwargs cls)
       = Return (tag_name, args, kwargs) →
     let parsed :=
       BaseAssignmentOrInclusionNode_parse Parser parse_token_kwargs parse_as_var
         cls parser token in
     parsed = (validate_args cls tag_name args ∅;;
               BaseAssignmentOrInclusionNode_new cls tag_name as_var args kwargs) ∧
     ((∃ msg, parsed = Raise (TemplateSyntaxError msg))
        ↔ out_of_bounds cls (length args)) ∧
     (¬ out_of_bounds cls (length args) →
      parsed = BaseAssignmentOrInclusionNode_new cls tag_name as_var args kwargs) ∧
     (∀ node, parsed = Return node → ¬ out_of_bounds cls (length args))).
Proof.
  split_and!.
  - unfold BaseAssignmentOrInclusionNode_allowed_kwargs. by left.
  - intros name Hin. unfold BaseAssignmentOrInclusionNode_allowed_kwargs. by right.
  - intros helper Hsame. unfold BaseAssignmentOrInclusionNode_parse.
    destruct (parse_as_var parser token) as [[bits as_var]|e]; [|done].
    simpl. by rewrite Hsame.
  - intros bits as_var tag_name args kwargs Hv Hp. cbn zeta.
    rewrite (BaseAssignmentOrInclusionNode_parse_parsed _ _ _ _ _ _ _ _ Hv Hp).
    split; [done |].
    destruct (validated_cases cls tag_name args ∅
                (BaseAssignmentOrInclusionNode_new cls tag_name as_var args kwargs))
      as [(Hout & msg & Hr) | (Hin & Hr)]; rewrite Hr.
    + split_and!.
      * split; [done | intros _; by exists msg].
      * intros Hn. by destruct Hn.
      * by intros node.
    + split_and!; [| done | done].
      split; [|intros Hout; by destruct Hin].
      intros (msg & Hm). unfold BaseAssignmentOrInclusionNode_new in Hm.
      by destruct (bind_kwargs_cases "__init__" ["self"; "tag_name"; "as_var"] kwargs)
        as [[_ Hb] | [_ Hb]]; rewrite Hb in Hm.
Qed.

End ParsingProperties.


(** ** The sample tag, run *)

Example hello_rendered :
  (render sample_resolve (sample_render_tag IsBaseInclusionNode)
          (mkState hello_node sample_context)).1 = Return "Hello world".
Proof. vm_compute. reflexivity. Qed.

Example hello_assigned :
  let out := render sample_resolve (sample_render_tag IsBaseAssignmentOrInclusionNode)
                    (mkState hello_as_node sample_context) in
  out.1 = Return EmptyString ∧
  getitem (st_context out.2) "greeting" = Return (PyStr "world") ∧
  st_self out.2 = hello_as_node.
Proof. vm_compute. by split_and!. Qed.

Example hello_too_many_arguments :
  validate_args HelloTag_class "hello" [PyFilterExpression "a"; PyFilterExpression "b"] ∅
  = Raise (TemplateSyntaxError "'hello' tag only allows 1 argument.").
Proof. vm_compute. reflexivity. Qed.

Example named_keyword_TypeError :
  BaseNode_parse unit named_parse_token_kwargs NamedTag_class tt
                 (Token "named a b tag_name=c")
  = Raise (TypeError "validate_args").
Proof. vm_compute. reflexivity. Qed.

Example context_keyword_TypeError :
  (render sample_resolve (sample_render_tag IsBaseNode)
          (mkState (BaseNode_init HelloTag_class "hello" []
                      {[ "context" := PyFilterExpression "who" ]})
                   sample_context)).1
  = Raise (TypeError "render_tag").
Proof. vm_compute. reflexivity. Qed.

Example parent_context_keyword_TypeError :
  (BaseAssignmentOrInclusionNode_render_tag sample_get_template
     sample_nodelist_render sample_get_value
     [PyStr "world"] {[ "parent_context" := PyStr "x" ]}
     (mkState hello_node sample_context)).1
  = Raise (TypeError "get_context_data").
Proof. vm_compute. reflexivity. Qed.

Example new_context_builtins :
  getitem (Context_new ∅ true) "True" = Return (PyBool true) ∧
  has_key (Context_new ∅ true) "x" = false.
Proof. vm_compute. by split. Qed.

(** C5, as stated, fails: the first [render] of an inclusion node stores the
    loaded template's nodes in [self.nodelist]. *)
Lemma render_caches_nodelist :
  ¬ leaves_node_unchanged
      (render sample_resolve (sample_render_tag IsBaseInclusionNode)).
Proof.
  intros H. specialize (H hello_node sample_context).
  vm_compute in H. discriminate.
Qed.

(** C6 at the sample tag: the argument [who] and the keyword
    [template=tpl] are resolved in the sample context. *)
Lemma render_resolves_arguments_witness :
  render sample_resolve (sample_render_tag IsBaseInclusionNode)
         (mkState hello_template_node sample_context)
  = sample_render_tag IsBaseInclusionNode
      [PyStr "world"] {[ "template" := PyStr "hello.html" ]}
      (mkState hello_template_node sample_context).
Proof.
  apply (render_resolves_arguments sample_resolve).
  - unfold passed_args. simpl. repeat constructor.
  - unfold passed_kwargs. simpl. intros name.
    destruct (decide (name = "template")) as [-> | Hne].
    + rewrite !lookup_singleton_eq. constructor. reflexivity.
    + rewrite !lookup_singleton_ne by done. constructor.
Defined.

(** C10 at the sample tag used as [{% hello who as greeting %}]. *)
Lemma render_tag_writes_as_var_only_witness :
  let context' :=
    st_context (BaseAssignmentOrInclusionNode_render_tag
                  sample_get_template sample_nodelist_render sample_get_value
                  [PyStr "world"] ∅ (mkState hello_as_node sample_context)).2 in
  (context' = sample_context ∨
   ∃ value, sample_get_value hello_as_node [PyStr "world"] ∅ = Return value ∧
            context' = setitem sample_context "greeting" value) ∧
  below context' = below sample_context ∧
  autoescape context' = autoescape sample_context ∧
  (∀ key, key ≠ "greeting" →
     top context' !! key = top sample_context !! key ∧
     first_binding key (scopes context') = first_binding key (scopes sample_context) ∧
     has_key context' key = has_key sample_context key).
Proof.
  apply (render_tag_writes_as_var_only sample_get_template sample_nodelist_render
           sample_get_value hello_as_node sample_context [PyStr "world"] ∅ "greeting").
  - reflexivity.
  - discriminate.
Defined.

(** * Further properties *)

(** ** Argument counts *)

Lemma validate_args_Return cls tag_name args kwargs :
  validate_args cls tag_name args kwargs = Return tt ↔
  ¬ out_of_bounds cls (length args).
Proof.
  destruct (validate_args_cases cls tag_name args kwargs)
    as [(Hout & msg & ->) | (Hin & ->)]; split; try done.
Qed.

(** X1. The numbers of positional arguments [validate_args] accepts form an
    interval: a count between two accepted counts is accepted. *)
Theorem validate_args_interval (cls : TagClass) (tag_name : string)
    (args1 args args2 : list pyval) (kwargs : gmap string pyval) :
  validate_args cls tag_name args1 kwargs = Return tt →
  validate_args cls tag_name args2 kwargs = Return tt →
  (length args1 ≤ length args ≤ length args2)%nat →
  validate_args cls tag_name args kwargs = Return tt.
Proof.
  rewrite !validate_args_Return. intros H1 H2 [Hle1 Hle2] [(m & Hm & Hlt) | (m & Hm & Hgt)].
  - apply H1. left. exists m. split; [done | lia].
  - apply H2. right. exists m. split; [done | lia].
Qed.

Lemma validate_args_interval_witness :
  validate_args PairTag_class "pair" [PyFilterExpression "a"] ∅ = Return tt.
Proof.
  apply (validate_args_interval PairTag_class "pair"
           [] [PyFilterExpression "a"]
           [PyFilterExpression "a"; PyFilterExpression "b"] ∅).
  - reflexivity.
  - reflexivity.
  - simpl. lia.
Defined.

(** X2. Some argument list passes [validate_args] exactly when the declared
    bounds are consistent: [max_args], when set, is not negative and not
    below a set [min_args].  A class with [min_args > max_args] rejects
    every invocation. *)
Theorem validate_args_satisfiable (cls : TagClass) (tag_name : string)
    (kwargs : gmap string pyval) :
  (∃ args, validate_args cls tag_name args kwargs = Return tt) ↔
  consistent_bounds cls.
Proof.
  unfold consistent_bounds. split.
  - intros (args & Hok). apply validate_args_Return in Hok.
    unfold out_of_bounds in Hok.
    destruct (max_args cls) as [M|]; [|done].
    assert (¬ (Z.of_nat (length args) > M)%Z) as HM.
    { intros Hgt. apply Hok. right. by exists M. }
    split; [lia |].
    destruct (min_args cls) as [m|]; [|done].
    assert (¬ (Z.of_nat (length args) < m)%Z) as Hm.
    { intros Hlt. apply Hok. left. by exists m. }
    lia.
  - intros Hc.
    exists (replicate (Z.to_nat (default 0%Z (min_args cls))) PyNone).
    apply validate_args_Return. rewrite length_replicate.
    intros [(m & Hm & Hlt) | (M & HM & Hgt)].
    + rewrite Hm in Hlt. simpl in Hlt. lia.
    + rewrite HM in Hc. destruct Hc as [H0 Hc].
      destruct (min_args cls) as [m|]; simpl in Hgt; lia.
Qed.

(** ** The request *)

Lemma get_request_first_binding self context :
  get_request self context =
    match first_binding "request" (scopes context) with
    | Some v => Return v
    | None =>
        Raise (ImproperlyConfigured
          ("The '" +:+ tag_name self +:+
           "' tag requires a 'request' variable in the template context." +:+
           String (Ascii.ascii_of_nat 10) EmptyString +:+
           "Make sure 'RequestContext' is used and 'TEMPLATE_CONTEXT_PROCESSORS' includes 'django.core.context_processors.request'."))
    end.
Proof.
  unfold get_request, getitem.
  destruct (has_key context "request") eqn:Hk; cbn [negb].
  - apply has_key_bound, first_binding_bound in Hk as [v Hv]. by rewrite Hv.
  - apply has_key_false_unbound in Hk.
    destruct (first_binding "request" (scopes context)) as [v|] eqn:Hv; [|done].
    destruct Hk. apply first_binding_bound. by rewrite Hv.
Qed.

(** X3. [get_request] reads what an assignment wrote: after
    [context['request'] = r] it returns [r], and an assignment to any other
    name leaves its outcome as it was. *)
Theorem get_request_after_setitem (self : Node) (context : Context)
    (key : string) (value : pyval) :
  get_request self (setitem context "request" value) = Return value ∧
  (key ≠ "request" →
   get_request self (setitem context key value) = get_request self context).
Proof.
  rewrite !get_request_first_binding. split.
  - by rewrite first_binding_setitem_eq.
  - intros Hne. by rewrite first_binding_setitem_ne.
Qed.

(** X4. The context [get_context] builds for the included template has a
    ['request'] only when the data has one: [get_request] on it returns
    [data['request']] and raises otherwise, whatever the parent binds. *)
Theorem get_request_in_included_context (self : Node) (parent_context : Context)
    (data : gmap string pyval) :
  (∀ v, get_request self (get_context parent_context data) = Return v
        ↔ data !! "request" = Some v) ∧
  (raises (get_request self (get_context parent_context data))
   ↔ data !! "request" = None).
Proof.
  rewrite get_request_first_binding.
  rewrite get_context_lookup_ne by done.
  destruct (data !! "request") as [r|]; split.
  - intros v. split; [by intros [= ->] | by intros [= ->]].
  - split; [by intros [e ?] | done].
  - intros v. split; done.
  - split; [done | intros _; by eexists].
Qed.

(** ** Resolving the arguments *)

Lemma mapM_first_Raise {A B} (f : A → Result B) (pre post : list A) (x : A) e :
  Forall (λ a, ∃ b, f a = Return b) pre →
  f x = Raise e →
  mapM f (pre ++ x :: post) = Raise e.
Proof.
  intros Hpre Hx. induction Hpre as [|a pre [b Hb] _ IH]; simpl.
  - by rewrite Hx.
  - rewrite Hb. simpl. by rewrite IH.
Qed.

Section ResolutionProperties.

Variable resolve : string → Context → Result pyval.

(** X5. Positional expressions are resolved from left to right and the first
    one that raises ends [render]: the exception is raised, [render_tag] is
    not called, and the node and the context are as they were. *)
Theorem render_raises_first_unresolved
    (render_tag : list pyval → gmap string pyval → M string)
    (self : Node) (context : Context)
    (pre post : list pyval) (expr : pyval) (e : exn) :
  compile_args (node_class self) = true →
  args self = (pre ++ expr :: post)%list →
  Forall (λ a, ∃ v, resolve_expr resolve context a = Return v) pre →
  resolve_expr resolve context expr = Raise e →
  render resolve render_tag (mkState self context)
  = (Raise e, mkState self context).
Proof.
  intros Hc Hargs Hpre He. rewrite render_unfold.
  unfold resolve_args. rewrite Hc, Hargs.
  by rewrite (mapM_first_Raise _ pre post expr e).
Qed.


End ResolutionProperties.

Lemma render_raises_first_unresolved_witness :
  render strict_resolve (sample_render_tag IsBaseInclusionNode)
         (mkState missing_node sample_context)
  = (Raise (OtherError "VariableDoesNotExist" "nobody"),
     mkState missing_node sample_context).
Proof.
  apply (render_raises_first_unresolved strict_resolve
           (sample_render_tag IsBaseInclusionNode) missing_node sample_context
           [PyFilterExpression "who"] [] (PyFilterExpression "nobody")).
  - reflexivity.
  - reflexivity.
  - repeat constructor. by exists (PyStr "world").
  - reflexivity.
Defined.


(** ** Rendering the tag *)

Section RenderTagProperties.

Variable resolve : string → Context → Result pyval.
Variable get_template : pyval → Result Template.
Variable nodelist_render : NodeList → Context → Result string.
Variable get_value : Node → list pyval → gmap string pyval → Result pyval.
Variable get_context_data :
  Node → Context → list pyval → gmap string pyval → Result (gmap string pyval).

(** X7. A node of a class that does not define [render_tag] cannot be
    rendered: [render] always raises and changes nothing.  Once the
    arguments are resolved the exception is [NotImplementedError] with the
    class name, or the [TypeError] of the call when a keyword is named
    [self] or [context]. *)
Theorem BaseNode_render_not_implemented (self : Node) (context : Context) :
  let rendered := render resolve (call_render_tag BaseNode_render_tag)
                         (mkState self context) in
  (∃ e, rendered = (Raise e, mkState self context)) ∧
  (∀ tag_args tag_kwargs,
     resolve_args resolve self context = Return tag_args →
     resolve_kwargs resolve self context = Return tag_kwargs →
     (binds ["self"; "context"] tag_kwargs →
      rendered
      = (Raise (NotImplementedError
                  (class_name (node_class self) +:+ ".render_tag() is not implemented!")),
         mkState self context)) ∧
     (¬ binds ["self"; "context"] tag_kwargs →
      rendered = (Raise (TypeError "render_tag"), mkState self context))).
Proof.
  cbn zeta. rewrite render_unfold. split.
  - destruct (resolve_args resolve self context) as [tag_args|]; [|by eexists].
    destruct (resolve_kwargs resolve self context) as [tag_kwargs|]; [|by eexists].
    rewrite call_render_tag_unfold.
    destruct (bind_kwargs "render_tag" ["self"; "context"] tag_kwargs);
      by eexists.
  - intros tag_args tag_kwargs -> ->. rewrite call_render_tag_unfold. split.
    + intros Hb. by rewrite bind_kwargs_binds.
    + intros Hb. by rewrite bind_kwargs_collides.
Qed.

(** X8. Rendering never writes the parent context unless the tag assigns:
    after [render] the context is the one passed in, except for a
    [BaseAssignmentOrInclusionNode] with a non-empty [as_var]. *)
Theorem render_keeps_parent_context (base : BaseClass) (self : Node)
    (context : Context) :
  let context' :=
    st_context (render resolve
                  (render_tag_of get_template nodelist_render get_value
                                 get_context_data base)
                  (mkState self context)).2 in
  context' = context ∨
  base = IsBaseAssignmentOrInclusionNode ∧
  ∃ name, as_var self = Some name ∧ name ≠ EmptyString.
Proof.
  cbn zeta. rewrite render_unfold.
  destruct (resolve_args resolve self context) as [tag_args|e]; [|by left].
  destruct (resolve_kwargs resolve self context) as [tag_kwargs|e]; [|by left].
  destruct (render_tag_of_state get_template nodelist_render get_value
              get_context_data base self context tag_args tag_kwargs)
    as [_ [Hc | (Hb & name & value & Has & Hne & _)]].
  - by left.
  - right. split; [done |]. by exists name.
Qed.

(** X9. The template is loaded before the context data is computed: when
    [get_template] raises, [render_tag] raises that exception whatever
    [get_context_data] would do, and nothing is stored on the node. *)
Theorem template_error_comes_first (self : Node) (context : Context)
    (tag_args : list pyval) (tag_kwargs : gmap string pyval) (e : exn) :
  nodelist_truthy self = false →
  get_template (get_template_name self tag_args tag_kwargs) = Raise e →
  BaseInclusionNode_render_tag get_template nodelist_render get_context_data
      tag_args tag_kwargs (mkState self context)
  = (Raise e, mkState self context).
Proof. apply BaseInclusionNode_render_tag_load_raises. Qed.

(** X10. An exception of [get_context_data] does not undo the caching: the
    exception is raised and the node keeps the nodes of the template that
    was just loaded. *)
Theorem context_data_error_keeps_nodelist (self : Node) (context : Context)
    (tag_args : list pyval) (tag_kwargs : gmap string pyval)
    (tpl : Template) (e : exn) :
  nodelist_truthy self = false →
  get_template (get_template_name self tag_args tag_kwargs) = Return tpl →
  get_context_data (with_nodelist self (tpl_nodelist tpl)) context
                   tag_args tag_kwargs = Raise e →
  BaseInclusionNode_render_tag get_template nodelist_render get_context_data
      tag_args tag_kwargs (mkState self context)
  = (Raise e, mkState (with_nodelist self (tpl_nodelist tpl)) context).
Proof.
  intros Hf Htpl He.
  rewrite (BaseInclusionNode_render_tag_load _ _ _ _ _ _ _ tpl) by done.
  by rewrite He.
Qed.

(** X11. The template loaded by the first [render_tag] serves every later
    one: once a template with nodes is loaded, a second [render_tag], with
    any arguments and any ['template'] keyword, renders the nodes of the
    first template and leaves the node alone. *)
Theorem loaded_template_is_reused (self : Node) (context context' : Context)
    (tag_args tag_args' : list pyval) (tag_kwargs tag_kwargs' : gmap string pyval)
    (tpl : Template) :
  nodelist_truthy self = false →
  get_template (get_template_name self tag_args tag_kwargs) = Return tpl →
  tpl_nodelist tpl ≠ [] →
  let render_tag :=
    BaseInclusionNode_render_tag get_template nodelist_render get_context_data in
  let self1 := st_self (render_tag tag_args tag_kwargs (mkState self context)).2 in
  self1 = with_nodelist self (tpl_nodelist tpl) ∧
  render_tag tag_args' tag_kwargs' (mkState self1 context')
  = (data ← get_context_data self1 context' tag_args' tag_kwargs';
     nodelist_render (tpl_nodelist tpl) (get_context context' data),
     mkState self1 context').
Proof.
  intros Hf Htpl Hne. cbn zeta.
  rewrite (BaseInclusionNode_render_tag_load get_template nodelist_render
             get_context_data self context tag_args tag_kwargs tpl) by done.
  cbn [snd st_self]. split; [done |].
  by rewrite (BaseInclusionNode_render_tag_cached _ _ _ _ _ _ _ (tpl_nodelist tpl)).
Qed.

(** X12. A template without nodes is not kept: after loading it, the next
    [render_tag] asks [get_template] again, so an exception of that second
    load is raised. *)
Theorem empty_template_is_loaded_again (self : Node) (context context' : Context)
    (tag_args tag_args' : list pyval) (tag_kwargs tag_kwargs' : gmap string pyval)
    (tpl : Template) (e : exn) :
  nodelist_truthy self = false →
  get_template (get_template_name self tag_args tag_kwargs) = Return tpl →
  tpl_nodelist tpl = [] →
  get_template (get_template_name self tag_args' tag_kwargs') = Raise e →
  let render_tag :=
    BaseInclusionNode_render_tag get_template nodelist_render get_context_data in
  let st1 := mkState (st_self (render_tag tag_args tag_kwargs (mkState self context)).2)
                     context' in
  render_tag tag_args' tag_kwargs' st1 = (Raise e, st1).
Proof.
  intros Hf Htpl Hnil He. cbn zeta.
  rewrite (BaseInclusionNode_render_tag_load get_template nodelist_render
             get_context_data self context tag_args tag_kwargs tpl) by done.
  cbn [snd st_self]. rewrite Hnil.
  apply BaseInclusionNode_render_tag_load_raises; [done | exact He].
Qed.

(** X13. An [as_var] that is the empty string counts as unset: the tag
    renders its template and does not touch the context. *)
Theorem empty_as_var_includes (self : Node) (context : Context)
    (tag_args : list pyval) (tag_kwargs : gmap string pyval) :
  as_var self = Some EmptyString →
  let out := BaseAssignmentOrInclusionNode_render_tag get_template nodelist_render
               get_value tag_args tag_kwargs (mkState self context) in
  out = BaseInclusionNode_render_tag get_template nodelist_render
          (BaseAssignmentOrInclusionNode_get_context_data get_value)
          tag_args tag_kwargs (mkState self context) ∧
  st_context out.2 = context.
Proof.
  intros Has. cbn zeta.
  rewrite BaseAssignmentOrInclusionNode_render_tag_include by (by right).
  split; [done |].
  by destruct (BaseInclusionNode_render_tag_state get_template nodelist_render
                 (BaseAssignmentOrInclusionNode_get_context_data get_value)
                 self context tag_args tag_kwargs) as [Hc _].
Qed.

(** X14. What the tag assigns can be read back: after [render_tag] with a
    non-empty [as_var], [context[as_var]] is the value [get_value]
    returned, also when an outer dict of the context binds the name; the
    outer dicts keep their own binding. *)
Theorem assigned_value_is_read_back (self : Node) (context : Context)
    (tag_args : list pyval) (tag_kwargs : gmap string pyval)
    (name : string) (value : pyval) :
  as_var self = Some name → name ≠ EmptyString →
  get_value self tag_args tag_kwargs = Return value →
  let context' :=
    st_context (BaseAssignmentOrInclusionNode_render_tag get_template
                  nodelist_render get_value tag_args tag_kwargs
                  (mkState self context)).2 in
  getitem context' name = Return value ∧
  has_key context' name = true ∧
  first_binding name (below context') = first_binding name (below context).
Proof.
  intros Has Hne Hv. cbn zeta.
  rewrite (BaseAssignmentOrInclusionNode_render_tag_assign _ _ _ _ _ _ _ name) by done.
  rewrite Hv. cbn [snd st_context]. split_and!.
  - unfold getitem. by rewrite first_binding_setitem_eq.
  - apply has_key_bound, first_binding_bound.
    by rewrite first_binding_setitem_eq.
  - done.
Qed.

(** X15. A tag that assigns never loads or renders a template: with a
    non-empty [as_var] the outcome of [render_tag] is the same for every
    template loader and renderer, and the node is unchanged. *)
Theorem assignment_never_loads_template (self : Node) (context : Context)
    (tag_args : list pyval) (tag_kwargs : gmap string pyval) (name : string)
    (get_template' : pyval → Result Template)
    (nodelist_render' : NodeList → Context → Result string) :
  as_var self = Some name → name ≠ EmptyString →
  let out := BaseAssignmentOrInclusionNode_render_tag get_template nodelist_render
               get_value tag_args tag_kwargs (mkState self context) in
  out = BaseAssignmentOrInclusionNode_render_tag get_template' nodelist_render'
          get_value tag_args tag_kwargs (mkState self context) ∧
  st_self out.2 = self.
Proof.
  intros Has Hne. cbn zeta.
  rewrite !(BaseAssignmentOrInclusionNode_render_tag_assign _ _ _ _ _ _ _ name) by done.
  split; [done |]. by destruct (get_value self tag_args tag_kwargs).
Qed.


End RenderTagProperties.

Lemma template_error_comes_first_witness :
  BaseInclusionNode_render_tag sample_get_template sample_nodelist_render
      sample_get_context_data
      [PyStr "world"] {[ "template" := PyStr "missing.html" ]}
      (mkState hello_node sample_context)
  = (Raise (OtherError "TemplateDoesNotExist" "hello"),
     mkState hello_node sample_context).
Proof.
  apply (template_error_comes_first sample_get_template sample_nodelist_render
           sample_get_context_data hello_node sample_context).
  - reflexivity.
  - vm_compute. reflexivity.
Defined.

Lemma context_data_error_keeps_nodelist_witness :
  BaseInclusionNode_render_tag sample_get_template sample_nodelist_render
      BaseInclusionNode_get_context_data [PyStr "world"] ∅
      (mkState hello_node sample_context)
  = (Raise (NotImplementedError "HelloTag.get_context_data() is not implemented."),
     mkState (with_nodelist hello_node [TextNode "Hello "; VariableNode "value"])
             sample_context).
Proof.
  apply (context_data_error_keeps_nodelist sample_get_template sample_nodelist_render
           BaseInclusionNode_get_context_data hello_node sample_context
           [PyStr "world"] ∅
           (mkTemplate [TextNode "Hello "; VariableNode "value"])).
  - reflexivity.
  - vm_compute. reflexivity.
  - reflexivity.
Defined.

Lemma loaded_template_is_reused_witness :
  let render_tag :=
    BaseInclusionNode_render_tag sample_get_template sample_nodelist_render
                                 sample_get_context_data in
  let self1 :=
    st_self (render_tag [PyStr "world"] ∅ (mkState hello_node sample_context)).2 in
  self1 = with_nodelist hello_node [TextNode "Hello "; VariableNode "value"] ∧
  render_tag [PyStr "again"] {[ "template" := PyStr "missing.html" ]}
             (mkState self1 sample_context)
  = (data ← sample_get_context_data self1 sample_context [PyStr "again"]
              {[ "template" := PyStr "missing.html" ]};
     sample_nodelist_render [TextNode "Hello "; VariableNode "value"]
                            (get_context sample_context data),
     mkState self1 sample_context).
Proof.
  apply (loaded_template_is_reused sample_get_template sample_nodelist_render
           sample_get_context_data hello_node sample_context sample_context
           [PyStr "world"] [PyStr "again"] ∅ {[ "template" := PyStr "missing.html" ]}
           (mkTemplate [TextNode "Hello "; VariableNode "value"])).
  - reflexivity.
  - vm_compute. reflexivity.
  - discriminate.
Defined.

Lemma empty_template_is_loaded_again_witness :
  let render_tag :=
    BaseInclusionNode_render_tag shelf_get_template sample_nodelist_render
                                 sample_get_context_data in
  let st1 :=
    mkState (st_self (render_tag [] ∅ (mkState empty_node sample_context)).2)
            sample_context in
  render_tag [] {[ "template" := PyStr "missing.html" ]} st1
  = (Raise (OtherError "TemplateDoesNotExist" "shelf"), st1).
Proof.
  apply (empty_template_is_loaded_again shelf_get_template sample_nodelist_render
           sample_get_context_data empty_node sample_context sample_context
           [] [] ∅ {[ "template" := PyStr "missing.html" ]} (mkTemplate [])).
  - reflexivity.
  - vm_compute. reflexivity.
  - reflexivity.
  - vm_compute. reflexivity.
Defined.

Lemma empty_as_var_includes_witness :
  let out := BaseAssignmentOrInclusionNode_render_tag sample_get_template
               sample_nodelist_render sample_get_value [PyStr "world"] ∅
               (mkState blank_as_node sample_context) in
  out = BaseInclusionNode_render_tag sample_get_template sample_nodelist_render
          (BaseAssignmentOrInclusionNode_get_context_data sample_get_value)
          [PyStr "world"] ∅ (mkState blank_as_node sample_context) ∧
  st_context out.2 = sample_context.
Proof.
  apply (empty_as_var_includes sample_get_template sample_nodelist_render
           sample_get_value blank_as_node sample_context [PyStr "world"] ∅).
  reflexivity.
Defined.

Lemma assigned_value_is_read_back_witness :
  let context' :=
    st_context (BaseAssignmentOrInclusionNode_render_tag sample_get_template
                  sample_nodelist_render sample_get_value [PyStr "world"] ∅
                  (mkState hello_as_node sample_context)).2 in
  getitem context' "greeting" = Return (PyStr "world") ∧
  has_key context' "greeting" = true ∧
  first_binding "greeting" (below context')
  = first_binding "greeting" (below sample_context).
Proof.
  apply (assigned_value_is_read_back sample_get_template sample_nodelist_render
           sample_get_value hello_as_node sample_context [PyStr "world"] ∅).
  - reflexivity.
  - discriminate.
  - reflexivity.
Defined.

Lemma assignment_never_loads_template_witness :
  let out := BaseAssignmentOrInclusionNode_render_tag sample_get_template
               sample_nodelist_render sample_get_value [PyStr "world"] ∅
               (mkState hello_as_node sample_context) in
  out = BaseAssignmentOrInclusionNode_render_tag shelf_get_template
          (λ _ _, Raise (OtherError "RuntimeError" "render"))
          sample_get_value [PyStr "world"] ∅
          (mkState hello_as_node sample_context) ∧
  st_self out.2 = hello_as_node.
Proof.
  apply (assignment_never_loads_template sample_get_template sample_nodelist_render
           sample_get_value hello_as_node sample_context [PyStr "world"] ∅ "greeting").
  - reflexivity.
  - discriminate.
Defined.

(** ** Parsing and rendering *)

Section ParseOutcomes.

Variable Parser : Type.
Variable parse_token_kwargs :
  Parser → TokenArg → list string → bool → bool
  → Result (string * list pyval * gmap string pyval).
Variable parse_as_var : Parser → TokenArg → Result (list string * option string).
Variable resolve : string → Context → Result pyval.

(** X17. [BaseNode.parse] passes on an exception of [parse_token_kwargs].
    Otherwise it ends in one of four ways, in this order: [TypeError] from
    the call of [validate_args] when a keyword is named [cls] or
    [tag_name]; [TemplateSyntaxError] for a number of positional arguments
    outside the bounds; [TypeError] from the constructor when a keyword is
    named [self]; else a node that holds the parsed tag name, arguments and
    keyword arguments, with no [as_var] and no loaded template. *)
Theorem BaseNode_parse_outcome (cls : TagClass) (parser : Parser)
    (token : TokenArg) :
  let parsed := BaseNode_parse Parser parse_token_kwargs cls parser token in
  match parse_token_kwargs parser token (allowed_kwargs cls)
                           (compile_args cls) (compile_kwargs cls) with
  | Raise e => parsed = Raise e
  | Return (tag_name, args, kwargs) =>
      (¬ binds ["cls"; "tag_name"] kwargs ∧
       parsed = Raise (TypeError "validate_args")) ∨
      (binds ["cls"; "tag_name"] kwargs ∧ out_of_bounds cls (length args) ∧
       ∃ msg, parsed = Raise (TemplateSyntaxError msg)) ∨
      (binds ["cls"; "tag_name"] kwargs ∧ ¬ out_of_bounds cls (length args) ∧
       ¬ binds ["self"; "tag_name"] kwargs ∧
       parsed = Raise (TypeError "__init__")) ∨
      (binds ["cls"; "tag_name"] kwargs ∧ ¬ out_of_bounds cls (length args) ∧
       binds ["self"; "tag_name"] kwargs ∧
       parsed = Return (mkNode cls tag_name args kwargs None None))
  end.
Proof.
  cbn zeta.
  destruct (parse_token_kwargs parser token (allowed_kwargs cls)
              (compile_args cls) (compile_kwargs cls))
    as [[[tag_name args] kwargs]|e] eqn:Hp.
  - rewrite (BaseNode_parse_parsed _ _ _ _ _ _ _ _ Hp).
    apply BaseNode_parse_cases.
  - unfold BaseNode_parse. by rewrite Hp.
Qed.

(** X18. [BaseAssignmentOrInclusionNode.parse] takes the "as var" part off
    first: an exception of [parse_as_var] is raised before
    [parse_token_kwargs] is called, whose exception is passed on too.
    Otherwise it raises [TemplateSyntaxError] for a number of positional
    arguments outside the bounds; [TypeError] from the constructor when a
    keyword is named [self], [tag_name] or [as_var]; else it returns a node
    that holds the parsed parts and the [as_var] that [parse_as_var]
    found. *)
Theorem BaseAssignmentOrInclusionNode_parse_outcome (cls : TagClass)
    (parser : Parser) (token : TokenArg) :
  let parsed := BaseAssignmentOrInclusionNode_parse Parser parse_token_kwargs
                  parse_as_var cls parser token in
  match parse_as_var parser token with
  | Raise e => parsed = Raise e
  | Return (bits, as_var) =>
      match parse_token_kwargs parser (Bits bits)
              (BaseAssignmentOrInclusionNode_allowed_kwargs cls)
              (compile_args cls) (compile_kwargs cls) with
      | Raise e => parsed = Raise e
      | Return (tag_name, args, kwargs) =>
          (out_of_bounds cls (length args) ∧
           ∃ msg, parsed = Raise (TemplateSyntaxError msg)) ∨
          (¬ out_of_bounds cls (length args) ∧
           ¬ binds ["self"; "tag_name"; "as_var"] kwargs ∧
           parsed = Raise (TypeError "__init__")) ∨
          (¬ out_of_bounds cls (length args) ∧
           binds ["self"; "tag_name"; "as_var"] kwargs ∧
           parsed = Return (mkNode cls tag_name args kwargs as_var None))
      end
  end.
Proof.
  cbn zeta.
  destruct (parse_as_var parser token) as [[bits as_var]|e] eqn:Hv;
    [| unfold BaseAssignmentOrInclusionNode_parse; by rewrite Hv].
  destruct (parse_token_kwargs parser (Bits bits)
              (BaseAssignmentOrInclusionNode_allowed_kwargs cls)
              (compile_args cls) (compile_kwargs cls))
    as [[[tag_name args] kwargs]|e] eqn:Hp.
  - rewrite (BaseAssignmentOrInclusionNode_parse_parsed _ _ _ _ _ _ _ _ _ _ _ Hv Hp).
    apply BaseAssignmentOrInclusionNode_parse_cases.
  - unfold BaseAssignmentOrInclusionNode_parse. rewrite Hv. simpl. by rewrite Hp.
Qed.


End ParseOutcomes.

